(** * Embeddings visualisation pipeline ([main.py])

    A shallow embedding of the request pipeline of the FastAPI application:
    data resolution ([get_data_by_type]), the embedding call
    ([generate_embeddings]), the t-SNE reduction and plot
    ([create_tsne_visualization]), the orchestration ([process_data]) and
    the endpoint ([get_processed_data]).

    Python objects that the code mutates in place (the module-level record
    lists, pyplot's figure stack, the static directory) live in an explicit
    [World]; functions that touch them run in a state-and-exception monad
    in which a raised exception keeps the mutations made so far, as in
    Python.  The OpenAI client, scikit-learn's TSNE and the drawing backend
    are collaborators of the program and are taken as an interface. *)

From Stdlib Require Import ZArith String Ascii Floats Lia.
From stdpp Require Import gmap strings list.

Open Scope string_scope.
Open Scope Z_scope.
Set Warnings "-register-all".

(** ** Data *)

(** A value held by a record field: what [json.load] puts in a dict, plus
    the embedding vector that [process_data] stores under ["embedding"]. *)
Inductive value :=
  | VNull
  | VBool (b : bool)
  | VNum (z : Z)
  | VStr (s : string)
  | VVec (v : list float).

(** A record is a Python [dict] keyed by field name. *)
Abbreviation record := (gmap string value).

(** The exceptions the pipeline can see.  [KeyError] and [IndexError] are
    raised by the program's own subscripts; [Raised cls msg] is an exception
    of class [cls] raised inside a collaborator. *)
Inductive exn :=
  | KeyError (key : string)
  | IndexError (msg : string)
  | Raised (cls msg : string).

Inductive result (A : Type) :=
  | Ok (a : A)
  | Raise (e : exn).
Arguments Ok {A} a.
Arguments Raise {A} e.

(** [str(e)]: a [KeyError] prints the [repr] of its key. *)
Definition str_exn (e : exn) : string :=
  match e with
  | KeyError k => "'" ++ k ++ "'"
  | IndexError msg => msg
  | Raised _ msg => msg
  end.

(** A pyplot figure: what [scatter], [annotate], [title], [xlabel],
    [ylabel] and [grid] have put on it.  Styling arguments (alpha, marker
    and font sizes, dpi) are not recorded. *)
Record Figure := mkFigure {
  figsize : option (Z * Z);       (* [None]: the rcParams default *)
  scatter_xs : list float;
  scatter_ys : list float;
  annotations : list (value * (float * float));
  fig_title : string;
  fig_xlabel : string;
  fig_ylabel : string;
  fig_grid : bool;
}.

(** Calls made to the collaborators, in the order they happen. *)
Inductive event :=
  | EvEmbed (model : string) (input : list value)
  | EvTSNE (n_components perplexity : Z) (random_state : option Z)
           (X : list (list float))
  | EvSavefig (path : string).

(** The three module-level lists that [get_data_by_type] hands out.  The
    function returns the list object itself, so the caller's writes go to
    the global: a resolved dataset is a reference. *)
Inductive dataset_ref := DummyArticles | DummyMovies | HuggingFaceMovies.

(** JSON-like payloads returned to the host. *)
Inductive json :=
  | JBool (b : bool)
  | JNum (z : Z)
  | JStr (s : string)
  | JVal (v : value)
  | JList (l : list json)
  | JObj (fields : list (string * json)).

(** A request: the query string as the ordered multi-dict Starlette keeps,
    and the base URL of the inbound request. *)
Record Request := mkRequest {
  query_params : list (string * string);
  base_url : string;
}.

(** ** Collaborators *)

(** The external services: [Net] is the state of the embedding service as
    seen from this process, [Rng] the state of numpy's global generator.
    [embeddings_create model input] is [client.embeddings.create] followed
    by the extraction of the [embedding] of each response item;
    [TSNE_fit_transform n_components perplexity random_state X] is
    [TSNE(...).fit_transform(np.array(X))], whose rows are pairs because
    [TSNE_COMPONENTS = 2]; [savefig_backend path fig] is the backend
    drawing [fig] and writing it at [path], which succeeds or raises. *)
Class Collaborators := {
  Net : Type;
  Rng : Type;
  embeddings_create :
    string -> list value -> Net -> result (list (list float)) * Net;
  TSNE_fit_transform :
    Z -> Z -> option Z -> list (list float) -> Rng ->
    result (list (float * float)) * Rng;
  savefig_backend : string -> Figure -> result unit;
}.

(** ** Python string and path helpers *)

(** [s.rstrip(c)] for a one-character set. *)
Fixpoint rstrip (c : ascii) (s : string) : string :=
  match s with
  | EmptyString => EmptyString
  | String a s' =>
      match rstrip c s' with
      | EmptyString => if Ascii.eqb a c then EmptyString else String a EmptyString
      | r => String a r
      end
  end.

(** [os.path.basename]: what follows the last slash; [tail] is what
    follows the last slash met so far. *)
Fixpoint basename_from (tail p : string) : string :=
  match p with
  | EmptyString => tail
  | String a p' =>
      if Ascii.eqb a "/" then basename_from p' p' else basename_from tail p'
  end.

Definition basename (p : string) : string := basename_from p p.

Definition ends_with_slash (a : string) : bool :=
  match rev (list_ascii_of_string a) with
  | c :: _ => Ascii.eqb c "/"
  | [] => false
  end.

(** [os.path.join(a, b)] on a POSIX host. *)
Definition path_join (a b : string) : string :=
  match b with
  | String "/" _ => b
  | _ => if (a =? "")%string || ends_with_slash a then a ++ b
         else a ++ "/" ++ b
  end.

Definition is_lower (c : ascii) : bool :=
  let n := nat_of_ascii c in (97 <=? n)%nat && (n <=? 122)%nat.
Definition is_upper (c : ascii) : bool :=
  let n := nat_of_ascii c in (65 <=? n)%nat && (n <=? 90)%nat.
Definition to_upper (c : ascii) : ascii :=
  if is_lower c then ascii_of_nat (nat_of_ascii c - 32) else c.
Definition to_lower (c : ascii) : ascii :=
  if is_upper c then ascii_of_nat (nat_of_ascii c + 32) else c.

(** [str.title()] on ASCII text: a letter that follows a letter is
    lower-cased, any other letter is upper-cased.  Bytes outside ASCII are
    left as they are, where Python would case the letters among them too;
    the result is used for the figure's title only. *)
Fixpoint title_from (prev_cased : bool) (s : string) : string :=
  match s with
  | EmptyString => EmptyString
  | String c s' =>
      if is_lower c || is_upper c
      then String (if prev_cased then to_lower c else to_upper c)
                  (title_from true s')
      else String c (title_from false s')
  end.

Definition str_title (s : string) : string := title_from false s.

(** [QueryParams.get(key, default)]: Starlette builds its dict from the
    items in order, so the last item with the key wins. *)
Fixpoint params_get (qp : list (string * string)) (key default : string)
  : string :=
  match qp with
  | [] => default
  | (k, v) :: qp' =>
      params_get qp' key (if (k =? key)%string then v else default)
  end.

(** Truth value of a Python list: empty is false. *)
Definition truthy {A} (l : list A) : bool :=
  match l with
  | [] => false
  | _ :: _ => true
  end.

(** [l[i]] on a Python list. *)
Definition list_index {A} (l : list A) (i : nat) : result A :=
  match l !! i with
  | Some x => Ok x
  | None => Raise (IndexError "list index out of range")
  end.

(** [item[field]] on a dict. *)
Definition getitem (item : record) (field : string) : result value :=
  match item !! field with
  | Some v => Ok v
  | None => Raise (KeyError field)
  end.

(** [[item[field] for item in data]]: stops at the first missing key. *)
Fixpoint getitems (field : string) (data : list record)
  : result (list value) :=
  match data with
  | [] => Ok []
  | item :: data' =>
      match getitem item field with
      | Raise e => Raise e
      | Ok v =>
          match getitems field data' with
          | Raise e => Raise e
          | Ok vs => Ok (v :: vs)
          end
      end
  end.

(** ** Configuration constants *)

Definition EMBEDDING_MODEL : string := "text-embedding-3-small".
Definition TSNE_COMPONENTS : Z := 2.
Definition MIN_PERPLEXITY : Z := 5.
Definition FIGURE_SIZE : Z * Z := (10, 8).
Definition STATIC_DIR : string := "static".

(** [load_json_data]: any failure of the read yields the empty list. *)
Definition load_json_data (read : string -> result (list record))
    (file_path : string) : list record :=
  match read file_path with
  | Ok data => data
  | Raise _ => []
  end.

Section Model.
Context `{C : Collaborators}.

(** ** The world the pipeline runs in *)

Record World := mkWorld {
  DUMMY_ARTICLES : list record;
  DUMMY_MOVIES : list record;
  HUGGING_FACE_MOVIES : list record;
  net : Net;
  rng : Rng;
  figures : list Figure;          (* pyplot's open figures, current first *)
  dirs : gset string;             (* directories created by the process *)
  files : gmap string Figure;     (* image files on storage *)
  calls : list event;             (* calls to collaborators, oldest first *)
}.

(** Module start-up: the two bundled files and the Hugging Face download,
    each replaced by the empty list when it fails. *)
Definition startup (read : string -> result (list record))
    (hf : result (list record)) (n : Net) (g : Rng) : World :=
  {| DUMMY_ARTICLES := load_json_data read "data/articles.json";
     DUMMY_MOVIES := load_json_data read "data/movies.json";
     HUGGING_FACE_MOVIES := match hf with Ok d => d | Raise _ => [] end;
     net := n; rng := g; figures := []; dirs := ∅; files := ∅;
     calls := [] |}.

Definition deref (w : World) (r : dataset_ref) : list record :=
  match r with
  | DummyArticles => DUMMY_ARTICLES w
  | DummyMovies => DUMMY_MOVIES w
  | HuggingFaceMovies => HUGGING_FACE_MOVIES w
  end.

Definition set_dataset (r : dataset_ref) (d : list record) (w : World)
  : World :=
  match r with
  | DummyArticles =>
      mkWorld d (DUMMY_MOVIES w) (HUGGING_FACE_MOVIES w) (net w) (rng w)
              (figures w) (dirs w) (files w) (calls w)
  | DummyMovies =>
      mkWorld (DUMMY_ARTICLES w) d (HUGGING_FACE_MOVIES w) (net w) (rng w)
              (figures w) (dirs w) (files w) (calls w)
  | HuggingFaceMovies =>
      mkWorld (DUMMY_ARTICLES w) (DUMMY_MOVIES w) d (net w) (rng w)
              (figures w) (dirs w) (files w) (calls w)
  end.

Definition set_net (n : Net) (w : World) : World :=
  mkWorld (DUMMY_ARTICLES w) (DUMMY_MOVIES w) (HUGGING_FACE_MOVIES w) n
          (rng w) (figures w) (dirs w) (files w) (calls w).
Definition set_rng (g : Rng) (w : World) : World :=
  mkWorld (DUMMY_ARTICLES w) (DUMMY_MOVIES w) (HUGGING_FACE_MOVIES w) (net w)
          g (figures w) (dirs w) (files w) (calls w).
Definition set_figures (fs : list Figure) (w : World) : World :=
  mkWorld (DUMMY_ARTICLES w) (DUMMY_MOVIES w) (HUGGING_FACE_MOVIES w) (net w)
          (rng w) fs (dirs w) (files w) (calls w).
Definition set_dirs (ds : gset string) (w : World) : World :=
  mkWorld (DUMMY_ARTICLES w) (DUMMY_MOVIES w) (HUGGING_FACE_MOVIES w) (net w)
          (rng w) (figures w) ds (files w) (calls w).
Definition set_files (fl : gmap string Figure) (w : World) : World :=
  mkWorld (DUMMY_ARTICLES w) (DUMMY_MOVIES w) (HUGGING_FACE_MOVIES w) (net w)
          (rng w) (figures w) (dirs w) fl (calls w).
Definition log (e : event) (w : World) : World :=
  mkWorld (DUMMY_ARTICLES w) (DUMMY_MOVIES w) (HUGGING_FACE_MOVIES w) (net w)
          (rng w) (figures w) (dirs w) (files w) (calls w ++ [e]).

(** ** The state-and-exception monad *)

Definition M (A : Type) : Type := World -> result A * World.

Definition ret {A} (a : A) : M A := fun w => (Ok a, w).
Definition raise {A} (e : exn) : M A := fun w => (Raise e, w).
Definition bind {A B} (m : M A) (k : A -> M B) : M B :=
  fun w =>
    match m w with
    | (Ok a, w') => k a w'
    | (Raise e, w') => (Raise e, w')
    end.
Definition lift {A} (r : result A) : M A := fun w => (r, w).
Definition modify (f : World -> World) : M unit := fun w => (Ok tt, f w).
Definition gets {A} (f : World -> A) : M A := fun w => (Ok (f w), w).

(** [for i, x in enumerate(l): body], counting from [i]. *)
Fixpoint for_enumerate {A} (body : nat -> A -> M unit) (i : nat)
    (l : list A) : M unit :=
  match l with
  | [] => ret tt
  | x :: l' => bind (body i x) (fun _ => for_enumerate body (S i) l')
  end.

End Model.

Notation "x <- m ;; k" := (bind m (fun x => k))
  (at level 100, m at next level, right associativity).
Notation "m ;;; k" := (bind m (fun _ => k))
  (at level 100, right associativity).

Section Pipeline.
Context `{C : Collaborators}.

(** ** pyplot and os *)

Definition new_figure (size : option (Z * Z)) : Figure :=
  mkFigure size [] [] [] "" "" "" false.

(** [plt.figure(figsize=...)]: a new figure becomes the current one. *)
Definition plt_figure (size : Z * Z) : M unit :=
  modify (fun w => set_figures (new_figure (Some size) :: figures w) w).

(** pyplot calls act on the current figure and make one if none is open. *)
Definition on_gcf (f : Figure -> Figure) : M unit :=
  modify (fun w =>
    match figures w with
    | [] => set_figures [f (new_figure None)] w
    | fig :: rest => set_figures (f fig :: rest) w
    end).

Definition plt_scatter (xs ys : list float) : M unit :=
  on_gcf (fun g => mkFigure (figsize g) (scatter_xs g ++ xs)
    (scatter_ys g ++ ys) (annotations g) (fig_title g) (fig_xlabel g)
    (fig_ylabel g) (fig_grid g)).

Definition plt_annotate (text : value) (xy : float * float) : M unit :=
  on_gcf (fun g => mkFigure (figsize g) (scatter_xs g) (scatter_ys g)
    (annotations g ++ [(text, xy)]) (fig_title g) (fig_xlabel g)
    (fig_ylabel g) (fig_grid g)).

Definition plt_title (s : string) : M unit :=
  on_gcf (fun g => mkFigure (figsize g) (scatter_xs g) (scatter_ys g)
    (annotations g) s (fig_xlabel g) (fig_ylabel g) (fig_grid g)).

Definition plt_xlabel (s : string) : M unit :=
  on_gcf (fun g => mkFigure (figsize g) (scatter_xs g) (scatter_ys g)
    (annotations g) (fig_title g) s (fig_ylabel g) (fig_grid g)).

Definition plt_ylabel (s : string) : M unit :=
  on_gcf (fun g => mkFigure (figsize g) (scatter_xs g) (scatter_ys g)
    (annotations g) (fig_title g) (fig_xlabel g) s (fig_grid g)).

Definition plt_grid (b : bool) : M unit :=
  on_gcf (fun g => mkFigure (figsize g) (scatter_xs g) (scatter_ys g)
    (annotations g) (fig_title g) (fig_xlabel g) (fig_ylabel g) b).

(** [plt.tight_layout()] only moves what is already on the figure. *)
Definition plt_tight_layout : M unit := on_gcf (fun g => g).

(** [plt.savefig(path)]: the backend draws the current figure and writes
    it at [path], replacing what was there. *)
Definition plt_savefig (path : string) : M unit :=
  on_gcf (fun g => g) ;;;
  modify (log (EvSavefig path)) ;;;
  fig <- gets (fun w => hd (new_figure None) (figures w)) ;;
  lift (savefig_backend path fig) ;;;
  modify (fun w => set_files (<[path := fig]> (files w)) w).

(** [plt.close()]: the current figure is closed. *)
Definition plt_close : M unit :=
  modify (fun w => set_figures (tail (figures w)) w).

(** [os.makedirs(d, exist_ok=True)]. *)
Definition os_makedirs (d : string) : M unit :=
  modify (fun w => set_dirs ({[d]} ∪ dirs w) w).

(** [tsne_2d[i, 0], tsne_2d[i, 1]]: row [i] of the array. *)
Definition array_row (a : list (float * float)) (i : nat)
  : result (float * float) :=
  match a !! i with
  | Some p => Ok p
  | None => Raise (IndexError "index out of bounds for axis 0")
  end.

(** [item["embedding"] = v] for the [i]-th dict of the list [r]. *)
Definition setitem (r : dataset_ref) (i : nat) (key : string) (v : value)
  : M unit :=
  modify (fun w => set_dataset r (alter (insert key v) i (deref w r)) w).

(** ** The pipeline *)

Definition get_data_by_type (w : World) (data_type source : string)
  : dataset_ref * string * string :=
  if (data_type =? "movies")%string then
    if (source =? "huggingface")%string
       && truthy (HUGGING_FACE_MOVIES w)
    then (HuggingFaceMovies, "plot", "title")
    else (DummyMovies, "plot", "title")
  else (DummyArticles, "content", "title").

Definition generate_embeddings (texts : list value)
  : M (list (list float)) :=
  modify (log (EvEmbed EMBEDDING_MODEL texts)) ;;;
  fun w =>
    let (r, n) := embeddings_create EMBEDDING_MODEL texts (net w) in
    (r, set_net n w).

(** The reduction step of [create_tsne_visualization]: the perplexity and
    the call of [TSNE(...).fit_transform]. *)
Definition tsne_perplexity (embedding_vectors : list (list float)) : Z :=
  Z.min MIN_PERPLEXITY (Z.of_nat (length embedding_vectors) - 1).

Definition tsne_reduce (embedding_vectors : list (list float))
  : M (list (float * float)) :=
  let perplexity := tsne_perplexity embedding_vectors in
  modify (log (EvTSNE TSNE_COMPONENTS perplexity (Some 42)
                      embedding_vectors)) ;;;
  fun w =>
    let (r, g) := TSNE_fit_transform TSNE_COMPONENTS perplexity (Some 42)
                    embedding_vectors (rng w) in
    (r, set_rng g w).

Definition create_tsne_visualization (embedding_vectors : list (list float))
    (titles : list value) (data_type : string) : M string :=
  tsne_2d <- tsne_reduce embedding_vectors ;;
  plt_figure FIGURE_SIZE ;;;
  plt_scatter (map fst tsne_2d) (map snd tsne_2d) ;;;
  for_enumerate (fun i title =>
      xy <- lift (array_row tsne_2d i) ;;
      plt_annotate title xy) 0%nat titles ;;;
  plt_title ("t-SNE Visualization of " ++ str_title data_type) ;;;
  plt_xlabel "t-SNE Component 1" ;;;
  plt_ylabel "t-SNE Component 2" ;;;
  plt_grid true ;;;
  plt_tight_layout ;;;
  os_makedirs STATIC_DIR ;;;
  let image_path := path_join STATIC_DIR ("tsne_" ++ data_type ++ ".png") in
  plt_savefig image_path ;;;
  plt_close ;;;
  ret image_path.

Definition process_data (request : Request) : M json :=
  let data_type := params_get (query_params request) "type" "articles" in
  let source := params_get (query_params request) "source" "dummy" in
  resolved <- gets (fun w => get_data_by_type w data_type source) ;;
  let '(data, text_field, title_field) := resolved in
  items <- gets (fun w => deref w data) ;;
  lift (getitems title_field (take 3 items)) ;;;
  texts <- lift (getitems text_field items) ;;
  embedding_vectors <- generate_embeddings texts ;;
  for_enumerate (fun i _ =>
      v <- lift (list_index embedding_vectors i) ;;
      setitem data i "embedding" (VVec v)) 0%nat items ;;;
  items' <- gets (fun w => deref w data) ;;
  titles <- lift (getitems title_field items') ;;
  image_path <- create_tsne_visualization embedding_vectors titles
                  (data_type ++ "_" ++ source) ;;
  let base := rstrip "/" (base_url request) in
  let image_url := base ++ "/static/" ++ basename image_path in
  count <- gets (fun w => length (deref w data)) ;;
  ret (JObj [("type", JStr data_type);
             ("source", JStr source);
             ("count", JNum (Z.of_nat count));
             ("texts", JList (map JVal texts));
             ("chart_url", JStr image_url)]).

(** The [/process] endpoint: [except Exception] turns every exception of
    [process_data] into a payload. *)
Definition get_processed_data (request : Request) (w : World)
  : json * World :=
  match process_data request w with
  | (Ok processed_data, w') =>
      (JObj [("success", JBool true); ("data", processed_data)], w')
  | (Raise e, w') =>
      (JObj [("success", JBool false);
             ("error", JStr (str_exn e));
             ("message",
              JStr "Failed to process data and generate visualization")],
       w')
  end.

End Pipeline.

(** ** Closed forms used by the statements *)

(** The annotation loop of [create_tsne_visualization] as a function of the
    projection and the titles: its outcome and the annotations it has added
    when it stops. *)
Fixpoint annotate_from (tsne_2d : list (float * float)) (i : nat)
    (titles : list value) : result unit * list (value * (float * float)) :=
  match titles with
  | [] => (Ok tt, [])
  | title :: titles' =>
      match array_row tsne_2d i with
      | Raise e => (Raise e, [])
      | Ok xy =>
          let (r, anns) := annotate_from tsne_2d (S i) titles' in
          (r, (title, xy) :: anns)
      end
  end.

(** The loop of [process_data] that stores the vectors, as a function of
    the list it writes to: its outcome and the list when it stops. *)
Fixpoint attach_from (embedding_vectors : list (list float)) (i : nat)
    (items data : list record) : result unit * list record :=
  match items with
  | [] => (Ok tt, data)
  | _ :: items' =>
      match list_index embedding_vectors i with
      | Raise e => (Raise e, data)
      | Ok v =>
          attach_from embedding_vectors (S i) items'
            (alter (insert "embedding" (VVec v)) i data)
      end
  end.

(** The figure on which [savefig] is called. *)
Definition plotted (tsne_2d : list (float * float))
    (anns : list (value * (float * float))) (data_type : string) : Figure :=
  mkFigure (Some FIGURE_SIZE) (map fst tsne_2d) (map snd tsne_2d) anns
    ("t-SNE Visualization of " ++ str_title data_type)
    "t-SNE Component 1" "t-SNE Component 2" true.

(** The artifact path for a key. *)
Definition image_path_of (key : string) : string :=
  "static/tsne_" ++ key ++ ".png".

(** Whether a string holds a slash. *)
Fixpoint has_slash (s : string) : bool :=
  match s with
  | EmptyString => false
  | String a s' => Ascii.eqb a "/" || has_slash s'
  end.

(** Two records that agree on every field but ["embedding"]. *)
Definition same_fields (r r' : record) : Prop :=
  ∀ k, k ≠ "embedding" → r' !! k = r !! k.

(** Lookup in a payload object. *)
Fixpoint assoc_get {A} (k : string) (l : list (string * A)) : option A :=
  match l with
  | [] => None
  | (k', v) :: l' => if (k' =? k)%string then Some v else assoc_get k l'
  end.

Definition json_get (k : string) (j : json) : option json :=
  match j with
  | JObj fields => assoc_get k fields
  | _ => None
  end.

Definition json_has (k : string) (j : json) : bool :=
  match json_get k j with Some _ => true | None => false end.

Definition json_is_str (o : option json) : bool :=
  match o with Some (JStr _) => true | _ => false end.

(** The response shape as the specification words it:
    [{ success, data?: { type, origin, count, fields_used, chart_url },
       error?, error_type? }]. *)
Definition documented_shape (resp : json) : bool :=
  match json_get "success" resp with
  | Some (JBool true) =>
      match json_get "data" resp with
      | Some d =>
          json_has "type" d && json_has "origin" d && json_has "count" d
          && json_has "fields_used" d && json_has "chart_url" d
      | None => false
      end
  | Some (JBool false) =>
      json_is_str (json_get "error" resp)
      && json_is_str (json_get "error_type" resp)
  | _ => false
  end.

(** The request with one more query parameter, and a request without a
    given parameter. *)
Definition with_param (k v : string) (req : Request) : Request :=
  mkRequest (query_params req ++ [(k, v)]) (base_url req).

Definition omits (k : string) (req : Request) : Prop :=
  ∀ v, (k, v) ∉ query_params req.


(** ** Test doubles and sample data *)

Module Fixture.

(** An embedding service that answers every text with the same short
    vector and counts its calls; a seeded TSNE that lays the points on
    the origin and, like scikit-learn, rejects a perplexity that is not
    positive; a backend that always writes. *)
Definition fake_embeddings (model : string) (input : list value) (n : nat)
  : result (list (list float)) * nat :=
  (Ok (map (fun _ => [1%float; 0%float]) input), S n).

Definition fake_tsne (n_components perplexity : Z) (seed : option Z)
    (X : list (list float)) (g : nat)
  : result (list (float * float)) * nat :=
  if perplexity <=? 0
  then (Raise (Raised "InvalidParameterError"
                      "The 'perplexity' parameter of TSNE must be a float in the range (0.0, inf)."),
        g)
  else (Ok (map (fun _ => (0%float, 0%float)) X),
        match seed with Some _ => g | None => S g end).

Definition fake_savefig (path : string) (fig : Figure) : result unit :=
  Ok tt.

Definition fakes : Collaborators :=
  {| Net := nat; Rng := nat;
     embeddings_create := fake_embeddings;
     TSNE_fit_transform := fake_tsne;
     savefig_backend := fake_savefig |}.

Definition movie (id : Z) (title plot : string) : record :=
  <["id" := VNum id]> (<["title" := VStr title]>
    (<["plot" := VStr plot]> ∅)).

Definition article (id : Z) (title content : string) : record :=
  <["id" := VNum id]> (<["title" := VStr title]>
    (<["content" := VStr content]> ∅)).

Definition movies : list record :=
  [movie 1 "Alien" "A crew meets a creature.";
   movie 2 "Heat" "A thief and a detective.";
   movie 3 "Up" "A house flies away."].

Definition articles : list record :=
  [article 1 "Rust" "Ownership and borrowing.";
   article 2 "Tea" "Leaves and water."].

Definition world (a m h : list record) : @World fakes :=
  @mkWorld fakes a m h 0%nat 0%nat [] ∅ ∅ [].

Definition w0 : @World fakes := world articles movies [].

Definition req (qp : list (string * string)) : Request :=
  mkRequest qp "http://localhost:8000/".

(** No record at all, a single article, and movies of which the second
    has no plot. *)
Definition w_empty : @World fakes := world [] [] [].
Definition w_one : @World fakes :=
  world [article 1 "Rust" "Ownership and borrowing."] [] [].

Definition perplexity_error : exn :=
  Raised "InvalidParameterError"
    "The 'perplexity' parameter of TSNE must be a float in the range (0.0, inf).".

(** Providers that break their contract or fail, and a backend that cannot
    write. *)
Definition short_embeddings (model : string) (input : list value) (n : nat)
  : result (list (list float)) * nat :=
  (Ok (take 1 (map (fun _ => [1%float; 0%float]) input)), S n).

Definition long_embeddings (model : string) (input : list value) (n : nat)
  : result (list (list float)) * nat :=
  (Ok (map (fun _ => [1%float; 0%float]) input ++ [[7%float; 7%float]])%list,
   S n).

Definition connection_error : exn :=
  Raised "APIConnectionError" "Connection error.".

Definition failing_embeddings (model : string) (input : list value) (n : nat)
  : result (list (list float)) * nat :=
  (Raise connection_error, S n).

Definition permission_error : exn :=
  Raised "PermissionError" "[Errno 13] Permission denied".

Definition readonly_savefig (path : string) (fig : Figure) : result unit :=
  Raise permission_error.

Definition fakes_short : Collaborators :=
  {| Net := nat; Rng := nat;
     embeddings_create := short_embeddings;
     TSNE_fit_transform := fake_tsne;
     savefig_backend := fake_savefig |}.

Definition fakes_long : Collaborators :=
  {| Net := nat; Rng := nat;
     embeddings_create := long_embeddings;
     TSNE_fit_transform := fake_tsne;
     savefig_backend := fake_savefig |}.

Definition fakes_offline : Collaborators :=
  {| Net := nat; Rng := nat;
     embeddings_create := failing_embeddings;
     TSNE_fit_transform := fake_tsne;
     savefig_backend := fake_savefig |}.

Definition fakes_readonly : Collaborators :=
  {| Net := nat; Rng := nat;
     embeddings_create := fake_embeddings;
     TSNE_fit_transform := fake_tsne;
     savefig_backend := readonly_savefig |}.

(** The sample world for any of the doubles. *)
Definition sample (C : Collaborators) (n0 : @Net C) (g0 : @Rng C)
  : @World C :=
  @mkWorld C articles movies [] n0 g0 [] ∅ ∅ [].

(** A file system that has neither bundled file. *)
Definition no_files (path : string) : result (list record) :=
  Raise (Raised "FileNotFoundError" path).

(** A TSNE that, like scikit-learn's, draws from a private generator made
    from the seed when it is given one, and from the global generator,
    which it advances, when it is not: the layout depends on the seed, or
    else on the state of the generator. *)
Definition coordinate (k : nat) : float :=
  Nat.iter k (fun x => (x + 1)%float) 0%float.

Definition stochastic_tsne (n_components perplexity : Z) (seed : option Z)
    (X : list (list float)) (g : nat)
  : result (list (float * float)) * nat :=
  if perplexity <=? 0
  then (Raise perplexity_error, g)
  else match seed with
       | Some s =>
           (Ok (map (fun _ => (coordinate (Z.to_nat s), 0%float)) X), g)
       | None => (Ok (map (fun _ => (coordinate g, 0%float)) X), S g)
       end.

Definition fakes_stochastic : Collaborators :=
  {| Net := nat; Rng := nat;
     embeddings_create := fake_embeddings;
     TSNE_fit_transform := stochastic_tsne;
     savefig_backend := fake_savefig |}.


(** What the request for the bundled movies answers. *)
Definition movies_response : json :=
  JObj [("type", JStr "movies");
        ("source", JStr "dummy");
        ("count", JNum 3);
        ("texts", JList [JVal (VStr "A crew meets a creature.");
                         JVal (VStr "A thief and a detective.");
                         JVal (VStr "A house flies away.")]);
        ("chart_url",
         JStr "http://localhost:8000/static/tsne_movies_dummy.png")].

End Fixture.

(** * Properties *)

(** ** Subscripts and query parameters *)







Lemma getitems_lookup field data vs :
  getitems field data = Ok vs →
  length vs = length data ∧
  ∀ i item, data !! i = Some item →
    ∃ v, item !! field = Some v ∧ vs !! i = Some v.
Proof.
  revert vs. induction data as [|item data IH]; cbn; intros vs.
  - intros [= <-]. split; [done|]. intros i item Hi. by destruct i.
  - unfold getitem. destruct (item !! field) as [v|] eqn:Hv; [|discriminate].
    destruct (getitems field data) as [vs'|]; [|discriminate].
    intros [= <-]. destruct (IH vs' eq_refl) as [Hlen Hget]. split.
    + cbn. by rewrite Hlen.
    + intros [|i] item' Hi; cbn in *.
      * injection Hi as <-. eauto.
      * by apply Hget.
Qed.

Lemma getitems_take field data vs n :
  getitems field data = Ok vs →
  getitems field (take n data) = Ok (take n vs).
Proof.
  revert vs n. induction data as [|item data IH]; cbn; intros vs n.
  - intros [= <-]. by destruct n.
  - destruct (getitem item field) as [v|] eqn:Hv; [|discriminate].
    destruct (getitems field data) as [vs'|] eqn:Hvs; [|discriminate].
    intros [= <-]. destruct n as [|n]; cbn; [done|].
    by rewrite Hv, (IH vs' n eq_refl).
Qed.

Lemma getitems_same_fields field data data' :
  field ≠ "embedding" → Forall2 same_fields data data' →
  getitems field data' = getitems field data.
Proof.
  intros Hne Hall. induction Hall as [|r r' l l' Hr Hall IH]; cbn; [done|].
  unfold getitem. rewrite (Hr field Hne), IH. done.
Qed.

Lemma same_fields_refl r : same_fields r r.
Proof. by intros k _. Qed.

Lemma same_fields_insert r r' v :
  same_fields r r' → same_fields r (<["embedding" := v]> r').
Proof. intros H k Hk. rewrite lookup_insert_ne; [by apply H|done]. Qed.

Lemma params_get_omitted qp key default :
  (∀ v, (key, v) ∉ qp) → params_get qp key default = default.
Proof.
  revert default. induction qp as [|[k v] qp IH]; cbn; intros d Hno; [done|].
  destruct (String.eqb_spec k key) as [->|Hne].
  - exfalso. apply (Hno v). left.
  - apply IH. intros v' Hin. apply (Hno v'). by right.
Qed.

Lemma params_get_snoc qp k v key default :
  params_get (qp ++ [(k, v)]) key default =
  if (k =? key)%string then v else params_get qp key default.
Proof.
  revert default. induction qp as [|[k' v'] qp IH]; cbn; intros d; [done|].
  apply IH.
Qed.

(** ** The two loops *)

Lemma annotate_from_ok tsne_2d titles i :
  (i + length titles ≤ length tsne_2d)%nat →
  annotate_from tsne_2d i titles = (Ok tt, zip titles (drop i tsne_2d)).
Proof.
  revert i. induction titles as [|t titles IH]; cbn; intros i Hlen; [done|].
  unfold array_row. destruct (tsne_2d !! i) as [xy|] eqn:Hxy.
  - rewrite IH by lia. rewrite (drop_S _ _ _ Hxy). done.
  - apply lookup_ge_None in Hxy. lia.
Qed.

Lemma annotate_from_length tsne_2d titles i r anns :
  annotate_from tsne_2d i titles = (Ok r, anns) → length anns = length titles.
Proof.
  revert i anns. induction titles as [|t titles IH]; cbn; intros i anns.
  - by intros [= _ <-].
  - destruct (array_row tsne_2d i); [|discriminate].
    destruct (annotate_from tsne_2d (S i) titles) as [r' anns'] eqn:H.
    intros [= -> <-]. cbn. f_equal. by eapply IH.
Qed.

Lemma attach_from_length es items i data :
  length (snd (attach_from es i items data)) = length data.
Proof.
  revert i data. induction items as [|x items IH]; cbn; intros i data; [done|].
  destruct (list_index es i); [|done]. by rewrite IH, length_alter.
Qed.

Lemma attach_from_same_fields es items i data0 data :
  Forall2 same_fields data0 data →
  Forall2 same_fields data0 (snd (attach_from es i items data)).
Proof.
  revert i data. induction items as [|x items IH]; cbn; intros i data H; [done|].
  destruct (list_index es i); [|done]. apply IH.
  apply Forall2_alter_r; [done|]. intros r r' _ _. apply same_fields_insert.
Qed.

Lemma attach_from_ok es items i data :
  (i + length items ≤ length es)%nat →
  fst (attach_from es i items data) = Ok tt ∧
  ∀ j item, data !! j = Some item →
    snd (attach_from es i items data) !! j =
    Some (if bool_decide (i ≤ j < i + length items)%nat
          then match es !! j with
               | Some e => <["embedding" := VVec e]> item
               | None => item
               end
          else item).
Proof.
  revert i data. induction items as [|x items IH]; cbn; intros i data Hlen.
  - split; [done|]. intros j item Hj. rewrite bool_decide_eq_false_2; [done|lia].
  - unfold list_index. destruct (es !! i) as [v|] eqn:Hv.
    2:{ apply lookup_ge_None in Hv. lia. }
    destruct (IH (S i) (alter (insert "embedding" (VVec v)) i data)) as [-> Hget];
      [lia|]. split; [done|]. intros j item Hj.
    destruct (decide (i = j)) as [<-|Hne].
    + rewrite (Hget i (<["embedding" := VVec v]> item)).
      * rewrite bool_decide_eq_false_2 by lia.
        rewrite bool_decide_eq_true_2 by lia. by rewrite Hv.
      * by rewrite list_lookup_alter_eq, Hj.
    + rewrite (Hget j item) by (by rewrite list_lookup_alter_ne).
      destruct (decide (S i ≤ j < S i + length items)%nat).
      * rewrite !bool_decide_eq_true_2 by lia. done.
      * rewrite !bool_decide_eq_false_2 by lia. done.
Qed.

Section Runs.
Context `{C : Collaborators}.

Lemma set_dataset_deref r (w : World) : set_dataset r (deref w r) w = w.
Proof. by destruct w, r. Qed.

Lemma set_figures_same (w : World) : set_figures (figures w) w = w.
Proof. by destruct w. Qed.

Lemma annotate_loop_run tsne_2d titles : ∀ i (w : World) sz xs ys anns t xl yl gr rest,
  figures w = mkFigure sz xs ys anns t xl yl gr :: rest →
  for_enumerate (fun i title =>
      xy <- lift (array_row tsne_2d i) ;;
      plt_annotate title xy) i titles w =
  (fst (annotate_from tsne_2d i titles),
   set_figures
     (mkFigure sz xs ys (anns ++ snd (annotate_from tsne_2d i titles))
               t xl yl gr :: rest) w).
Proof.
  induction titles as [|title titles IH]; cbn; intros i w sz xs ys anns t xl yl gr rest Hfig.
  - rewrite app_nil_r, <- Hfig, set_figures_same. done.
  - unfold bind at 1. unfold bind at 1. unfold lift at 1.
    destruct (array_row tsne_2d i) as [xy|e]; cbn.
    + unfold plt_annotate, on_gcf, modify. rewrite Hfig. cbn.
      erewrite IH by reflexivity.
      destruct (annotate_from tsne_2d (S i) titles) as [r anns']. cbn.
      by rewrite <- app_assoc.
    + rewrite app_nil_r, <- Hfig, set_figures_same. done.
Qed.

Lemma attach_loop_run data es items : ∀ i (w : World),
  for_enumerate (fun i (_ : record) =>
      v <- lift (list_index es i) ;;
      setitem data i "embedding" (VVec v)) i items w =
  (fst (attach_from es i items (deref w data)),
   set_dataset data (snd (attach_from es i items (deref w data))) w).
Proof.
  induction items as [|x items IH]; cbn; intros i w.
  - by rewrite set_dataset_deref.
  - unfold bind at 1. unfold bind at 1. unfold lift at 1.
    destruct (list_index es i) as [v|e]; cbn.
    + unfold setitem, modify. rewrite IH.
      by destruct w, data.
    + by rewrite set_dataset_deref.
Qed.

End Runs.

Section Visualization.
Context `{C : Collaborators}.

Lemma image_path_join key :
  path_join STATIC_DIR ("tsne_" ++ key ++ ".png") = image_path_of key.
Proof. reflexivity. Qed.

(** [create_tsne_visualization] in closed form. *)
(** The tail of [create_tsne_visualization], from [plt.title] to the
    [return], on a world whose current figure is known. *)
Lemma finish_plot_run t p a m h n g sz xs ys anns t0 xl0 yl0 gr0 rest ds fl
    cs :
  (plt_title t ;;;
   plt_xlabel "t-SNE Component 1" ;;;
   plt_ylabel "t-SNE Component 2" ;;;
   plt_grid true ;;;
   plt_tight_layout ;;;
   os_makedirs STATIC_DIR ;;;
   plt_savefig p ;;;
   plt_close ;;;
   ret p)
    (mkWorld a m h n g (mkFigure sz xs ys anns t0 xl0 yl0 gr0 :: rest) ds fl
       cs)
  = let fig := mkFigure sz xs ys anns t "t-SNE Component 1"
                 "t-SNE Component 2" true in
    match savefig_backend p fig with
    | Raise e =>
        (Raise e,
         mkWorld a m h n g (fig :: rest) ({[STATIC_DIR]} ∪ ds) fl
           (cs ++ [EvSavefig p]))
    | Ok _ =>
        (Ok p,
         mkWorld a m h n g rest ({[STATIC_DIR]} ∪ ds) (<[p := fig]> fl)
           (cs ++ [EvSavefig p]))
    end.
Proof.
  lazy beta iota zeta delta
    [bind modify gets lift ret on_gcf plt_title plt_xlabel plt_ylabel
     plt_grid plt_tight_layout os_makedirs plt_savefig plt_close
     set_figures set_files set_dirs log hd tail new_figure
     DUMMY_ARTICLES DUMMY_MOVIES HUGGING_FACE_MOVIES net rng figures dirs files calls figsize scatter_xs scatter_ys annotations fig_title fig_xlabel fig_ylabel fig_grid].
  destruct (savefig_backend _ _); reflexivity.
Qed.

Lemma create_tsne_visualization_run vs titles key (w : World) :
  create_tsne_visualization vs titles key w =
  let w1 := log (EvTSNE TSNE_COMPONENTS (tsne_perplexity vs) (Some 42) vs) w in
  match TSNE_fit_transform TSNE_COMPONENTS (tsne_perplexity vs) (Some 42) vs
          (rng w) with
  | (Raise e, g) => (Raise e, set_rng g w1)
  | (Ok tsne_2d, g) =>
      let w2 := set_rng g w1 in
      match annotate_from tsne_2d 0 titles with
      | (Raise e, anns) =>
          (Raise e,
           set_figures (mkFigure (Some FIGURE_SIZE) (map fst tsne_2d)
                          (map snd tsne_2d) anns "" "" "" false :: figures w)
                       w2)
      | (Ok _, anns) =>
          let fig := plotted tsne_2d anns key in
          let w3 := log (EvSavefig (image_path_of key))
                      (set_dirs ({[STATIC_DIR]} ∪ dirs w)
                         (set_figures (fig :: figures w) w2)) in
          match savefig_backend (image_path_of key) fig with
          | Raise e => (Raise e, w3)
          | Ok _ =>
              (Ok (image_path_of key),
               set_figures (figures w)
                 (set_files (<[image_path_of key := fig]> (files w)) w3))
          end
      end
  end.
Proof.
  destruct w as [a m h nt g0 fs ds fl cs].
  unfold create_tsne_visualization. rewrite image_path_join.
  unfold bind at 1. unfold tsne_reduce. unfold bind at 1.
  lazy beta iota zeta delta [modify log set_rng set_figures set_files
    set_dirs plotted DUMMY_ARTICLES DUMMY_MOVIES HUGGING_FACE_MOVIES net rng figures dirs files calls].
  destruct (TSNE_fit_transform _ _ _ _ _) as [[tsne_2d|e] g]; [|reflexivity].
  unfold bind at 1.
  lazy beta iota zeta delta [plt_figure modify set_figures new_figure DUMMY_ARTICLES DUMMY_MOVIES HUGGING_FACE_MOVIES net rng figures dirs files calls].
  unfold bind at 1.
  lazy beta iota zeta delta [plt_scatter on_gcf modify set_figures DUMMY_ARTICLES DUMMY_MOVIES HUGGING_FACE_MOVIES net rng figures dirs files calls figsize scatter_xs scatter_ys annotations fig_title fig_xlabel fig_ylabel fig_grid].
  cbn [app].
  unfold bind at 1.
  erewrite annotate_loop_run by reflexivity.
  lazy beta iota zeta delta [set_figures DUMMY_ARTICLES DUMMY_MOVIES HUGGING_FACE_MOVIES net rng figures dirs files calls].
  cbn [app].
  destruct (annotate_from tsne_2d 0 titles) as [[[]|e] anns];
    [|reflexivity].
  cbn [fst snd].
  rewrite finish_plot_run. cbn zeta.
  destruct (savefig_backend _ _); reflexivity.
Qed.

End Visualization.

Section Orchestration.
Context `{C : Collaborators}.

Lemma deref_set_dataset r d (w : World) : deref (set_dataset r d w) r = d.
Proof. by destruct r. Qed.

(** [process_data] in closed form. *)
Lemma process_data_run request (w : World) :
  process_data request w =
  let data_type := params_get (query_params request) "type" "articles" in
  let source := params_get (query_params request) "source" "dummy" in
  let '(data, text_field, title_field) :=
    get_data_by_type w data_type source in
  let items := deref w data in
  match getitems title_field (take 3 items) with
  | Raise e => (Raise e, w)
  | Ok _ =>
  match getitems text_field items with
  | Raise e => (Raise e, w)
  | Ok texts =>
  let w1 := log (EvEmbed EMBEDDING_MODEL texts) w in
  match embeddings_create EMBEDDING_MODEL texts (net w) with
  | (Raise e, n) => (Raise e, set_net n w1)
  | (Ok es, n) =>
  let w2 := set_net n w1 in
  match attach_from es 0 items items with
  | (Raise e, items') => (Raise e, set_dataset data items' w2)
  | (Ok _, items') =>
  let w3 := set_dataset data items' w2 in
  match getitems title_field items' with
  | Raise e => (Raise e, w3)
  | Ok titles =>
  match create_tsne_visualization es titles (data_type ++ "_" ++ source) w3
  with
  | (Raise e, w4) => (Raise e, w4)
  | (Ok image_path, w4) =>
      (Ok (JObj [("type", JStr data_type);
                 ("source", JStr source);
                 ("count", JNum (Z.of_nat (length (deref w4 data))));
                 ("texts", JList (map JVal texts));
                 ("chart_url",
                  JStr (rstrip "/" (base_url request) ++ "/static/"
                        ++ basename image_path))]),
       w4)
  end end end end end end.
Proof.
  unfold process_data. cbn zeta.
  unfold bind at 1. unfold gets at 1.
  destruct (get_data_by_type w _ _) as [[data text_field] title_field].
  unfold bind at 1. unfold gets at 1.
  unfold bind at 1. unfold lift at 1.
  destruct (getitems title_field (take 3 (deref w data))); [|done].
  unfold bind at 1. unfold lift at 1.
  destruct (getitems text_field (deref w data)) as [texts|]; [|done].
  unfold bind at 1. unfold generate_embeddings.
  unfold bind at 1. unfold modify at 1.
  change (net (log _ w)) with (net w).
  destruct (embeddings_create _ _ _) as [[es|e] n]; [|done].
  unfold bind at 1. rewrite attach_loop_run.
  assert (deref (set_net n (log (EvEmbed EMBEDDING_MODEL texts) w)) data
          = deref w data) as -> by (by destruct data).
  destruct (attach_from es 0 (deref w data) (deref w data)) as [[[]|e] items'];
    [|done]. cbn [fst snd].
  unfold bind at 1. unfold gets at 1.
  unfold bind at 1. unfold lift at 1.
  rewrite deref_set_dataset.
  destruct (getitems title_field items') as [titles|]; [|done].
  unfold bind at 1.
  destruct (create_tsne_visualization _ _ _ _) as [[image_path|e] w4]; done.
Qed.

End Orchestration.

Lemma same_fields_all data : Forall2 same_fields data data.
Proof. induction data; constructor; [apply same_fields_refl|done]. Qed.

Lemma attach_keeps_fields field es items data :
  field ≠ "embedding" →
  getitems field (snd (attach_from es 0 items data)) = getitems field data.
Proof.
  intros Hne. apply getitems_same_fields; [done|].
  apply attach_from_same_fields, same_fields_all.
Qed.

Section Resolution.
Context `{C : Collaborators}.

Lemma get_data_by_type_fields (w : World) data_type source data tf lf :
  get_data_by_type w data_type source = (data, tf, lf) →
  tf ≠ "embedding" ∧ lf ≠ "embedding".
Proof.
  unfold get_data_by_type.
  destruct (_ =? _)%string; [destruct (_ && _)|]; intros [= <- <- <-]; done.
Qed.

End Resolution.

Section Frames.
Context `{C : Collaborators}.

Lemma deref_set_dataset_ne r r' d (w : World) :
  r ≠ r' → deref (set_dataset r d w) r' = deref w r'.
Proof. by destruct r, r'. Qed.

Lemma visualization_calls vs titles key (w : World) :
  ∃ later,
    calls (snd (create_tsne_visualization vs titles key w)) =
    (calls w ++ EvTSNE TSNE_COMPONENTS (tsne_perplexity vs) (Some 42) vs
       :: later)%list.
Proof.
  rewrite create_tsne_visualization_run. cbn zeta.
  destruct (TSNE_fit_transform _ _ _ _ _) as [[tsne_2d|e] g].
  - destruct (annotate_from tsne_2d 0 titles) as [[[]|e] anns].
    + destruct (savefig_backend _ _); cbn;
        exists [EvSavefig (image_path_of key)]; by rewrite <- app_assoc.
    + by exists [].
  - by exists [].
Qed.

Lemma visualization_raise vs titles key (w : World) e g :
  TSNE_fit_transform TSNE_COMPONENTS (tsne_perplexity vs) (Some 42) vs (rng w)
  = (Raise e, g) →
  fst (create_tsne_visualization vs titles key w) = Raise e.
Proof. intros H. rewrite create_tsne_visualization_run. cbn zeta. by rewrite H. Qed.

Lemma visualization_deref vs titles key (w : World) r :
  deref (snd (create_tsne_visualization vs titles key w)) r = deref w r.
Proof.
  rewrite create_tsne_visualization_run. cbn zeta.
  destruct (TSNE_fit_transform _ _ _ _ _) as [[tsne_2d|e] g].
  - destruct (annotate_from tsne_2d 0 titles) as [[[]|e] anns].
    + destruct (savefig_backend _ _); by destruct r.
    + by destruct r.
  - by destruct r.
Qed.

(** What a run of [process_data] leaves in the three lists: the resolved
    one is as the storing loop left it, the others are as they were. *)
Lemma process_data_datasets req (w : World) data tf lf :
  get_data_by_type w (params_get (query_params req) "type" "articles")
    (params_get (query_params req) "source" "dummy") = (data, tf, lf) →
  let w' := snd (process_data req w) in
  (∀ r, r ≠ data → deref w' r = deref w r) ∧
  (deref w' data = deref w data ∨
   ∃ texts es n,
     getitems tf (deref w data) = Ok texts ∧
     embeddings_create EMBEDDING_MODEL texts (net w) = (Ok es, n) ∧
     deref w' data = snd (attach_from es 0 (deref w data) (deref w data))).
Proof.
  intros Hres. rewrite process_data_run. cbn zeta. rewrite Hres.
  destruct (getitems lf (take 3 _)); [|by auto].
  destruct (getitems tf _) as [texts|]; [|by auto].
  destruct (embeddings_create _ _ _) as [[es|e] n] eqn:Hemb.
  2:{ split; [by destruct r|]. left. by destruct data. }
  assert (∀ (w4 : World) items',
    (∀ r, deref w4 r = deref (set_dataset data items'
        (set_net n (log (EvEmbed EMBEDDING_MODEL texts) w))) r) →
    (∀ r, r ≠ data → deref w4 r = deref w r) ∧ deref w4 data = items') as Hw.
  { intros w4 items' Hw4. split.
    - intros r Hr. rewrite Hw4. by destruct r, data.
    - rewrite Hw4. by destruct data. }
  destruct (attach_from es 0 _ _) as [[[]|e] items'] eqn:Hatt; cbn [snd fst].
  2:{ destruct (Hw _ items' (fun r => eq_refl)) as [H1 H2].
      cbn [snd]; split; [done|]; right; exists texts, es, n;
      rewrite ?H2, ?Hatt; done. }
  destruct (getitems lf items').
  2:{ destruct (Hw _ items' (fun r => eq_refl)) as [H1 H2].
      cbn [snd]; split; [done|]; right; exists texts, es, n;
      rewrite ?H2, ?Hatt; done. }
  pose proof (visualization_deref es a0
    (params_get (query_params req) "type" "articles" ++ "_"
     ++ params_get (query_params req) "source" "dummy")
    (set_dataset data items'
       (set_net n (log (EvEmbed EMBEDDING_MODEL texts) w)))) as Hd.
  destruct (create_tsne_visualization _ _ _ _) as [[path|e] w4];
    cbn [snd] in *; destruct (Hw w4 items' Hd) as [H1 H2];
    (split; [done|]); right; exists texts, es, n;
    rewrite ?H2, ?Hatt; done.
Qed.

Lemma calls_set_dataset r d (w : World) : calls (set_dataset r d w) = calls w.
Proof. by destruct r. Qed.

Lemma rng_set_dataset r d (w : World) : rng (set_dataset r d w) = rng w.
Proof. by destruct r. Qed.

Lemma files_set_dataset r d (w : World) : files (set_dataset r d w) = files w.
Proof. by destruct r. Qed.

(** A run that gets past the two field extractions calls the provider, and
    when the provider answers, the resolved list is left as the storing
    loop made it. *)
Lemma process_data_embeds req (w : World) data tf lf t3 texts :
  get_data_by_type w (params_get (query_params req) "type" "articles")
    (params_get (query_params req) "source" "dummy") = (data, tf, lf) →
  getitems lf (take 3 (deref w data)) = Ok t3 →
  getitems tf (deref w data) = Ok texts →
  (∃ later,
     calls (snd (process_data req w)) =
     (calls w ++ EvEmbed EMBEDDING_MODEL texts :: later)%list) ∧
  ∀ es n,
    embeddings_create EMBEDDING_MODEL texts (net w) = (Ok es, n) →
    deref (snd (process_data req w)) data
    = snd (attach_from es 0 (deref w data) (deref w data)).
Proof.
  intros Hres H3 Htexts. rewrite process_data_run. cbn zeta.
  rewrite Hres, H3, Htexts.
  destruct (embeddings_create _ _ _) as [[es|e] n] eqn:Hemb.
  2:{ split; [by exists []|]. intros; discriminate. }
  destruct (attach_from es 0 (deref w data) (deref w data))
    as [[[]|e] items'] eqn:Hatt.
  2:{ cbn [snd]. rewrite calls_set_dataset, deref_set_dataset.
      split; [by exists []|]. intros ? ? [= <- <-]; by rewrite ?Hd, Hatt. }
  destruct (getitems lf items') as [titles|e].
  2:{ cbn [snd]. rewrite calls_set_dataset, deref_set_dataset.
      split; [by exists []|]. intros ? ? [= <- <-]; by rewrite ?Hd, Hatt. }
  set (key := params_get _ _ _ ++ "_" ++ params_get _ _ _).
  set (w3 := set_dataset data items' _).
  destruct (visualization_calls es titles key w3) as [later Hcalls].
  pose proof (visualization_deref es titles key w3 data) as Hd.
  assert (calls w3 = (calls w ++ [EvEmbed EMBEDDING_MODEL texts])%list) as Hw3
    by (unfold w3; by rewrite calls_set_dataset).
  rewrite Hw3, <- app_assoc in Hcalls. cbn [app] in Hcalls.
  unfold w3 in Hd at 2. rewrite deref_set_dataset in Hd.
  destruct (create_tsne_visualization es titles key w3) as [[?|?] w4];
    cbn [snd] in *; (split; [eauto|]); intros ? ? [= <- <-]; by rewrite ?Hd, Hatt.
Qed.

End Frames.

(** * The claims *)

Section Claims.
Context `{C : Collaborators}.

(** C4.  Whatever batch of N vectors reaches the reducer, the perplexity
    handed to TSNE is [min(5, N - 1)]: the outcome of the reduction step is
    what [TSNE_fit_transform] answers for that perplexity, two components
    and seed 42 on the batch, and the generator is left as that call left
    it.  [create_tsne_visualization] fails with what that call raises, and
    otherwise the points it plots are the points of that answer; it makes
    that call first and makes no other TSNE call. *)
Theorem C4_perplexity_clamp vs titles key (w : World) :
  let p := Z.min 5 (Z.of_nat (length vs) - 1) in
  let reply := TSNE_fit_transform 2 p (Some 42) vs (rng w) in
  tsne_perplexity vs = p ∧
  tsne_reduce vs w
  = (fst reply, set_rng (snd reply) (log (EvTSNE 2 p (Some 42) vs) w)) ∧
  rng (snd (create_tsne_visualization vs titles key w)) = snd reply ∧
  match fst reply with
  | Raise e => fst (create_tsne_visualization vs titles key w) = Raise e
  | Ok pts =>
      match create_tsne_visualization vs titles key w with
      | (Ok path, w') =>
          ∃ fig, files w' !! path = Some fig ∧
            scatter_xs fig = map fst pts ∧ scatter_ys fig = map snd pts
      | (Raise _, w') =>
          ∃ fig, head (figures w') = Some fig ∧
            scatter_xs fig = map fst pts ∧ scatter_ys fig = map snd pts
      end
  end ∧
  ∃ later,
    calls (snd (create_tsne_visualization vs titles key w)) =
    (calls w ++ EvTSNE 2 p (Some 42) vs :: later)%list ∧
    ∀ nc q s X, EvTSNE nc q s X ∉ later.
Proof.
  intros p reply. subst p reply.
  split; [reflexivity|].
  split.
  { unfold tsne_reduce, bind, modify.
    unfold TSNE_COMPONENTS, tsne_perplexity, MIN_PERPLEXITY.
    destruct w; cbn. by destruct (TSNE_fit_transform _ _ _ _ _). }
  rewrite create_tsne_visualization_run. cbn zeta.
  unfold TSNE_COMPONENTS, tsne_perplexity, MIN_PERPLEXITY.
  destruct (TSNE_fit_transform _ _ _ _ _) as [[pts|e] g]; cbn [fst snd].
  - destruct (annotate_from pts 0 titles) as [[[]|e] anns].
    + destruct (savefig_backend _ _) as [[]|e].
      * split; [by destruct w|]. split.
        { eexists. destruct w; cbn. by rewrite lookup_insert_eq. }
        exists [EvSavefig (image_path_of key)]. split.
        { destruct w; cbn. by rewrite <- app_assoc. }
        intros nc q s X H. apply list_elem_of_singleton in H. discriminate.
      * split; [by destruct w|]. split.
        { eexists. destruct w; cbn. done. }
        exists [EvSavefig (image_path_of key)]. split.
        { destruct w; cbn. by rewrite <- app_assoc. }
        intros nc q s X H. apply list_elem_of_singleton in H. discriminate.
    + split; [by destruct w|]. split.
      { eexists. destruct w; cbn. done. }
      exists []. split; [by destruct w|]. intros nc q s X H. inversion H.
  - split; [by destruct w|]. split; [done|].
    exists []. split; [by destruct w|]. intros nc q s X H. inversion H.
Qed.

(** C10.  Every type other than ["movies"], recognised or not, resolves to
    the articles list with fields ["content"] and ["title"] (the function
    is total, so nothing is rejected); and for movies from
    ["huggingface"] an empty Hugging Face list resolves to the bundled
    movies. *)
Theorem C10_resolution_fallbacks (w : World) data_type source :
  (data_type ≠ "movies" →
   get_data_by_type w data_type source = (DummyArticles, "content", "title")
   ∧ deref w DummyArticles = DUMMY_ARTICLES w) ∧
  (HUGGING_FACE_MOVIES w = [] →
   get_data_by_type w "movies" "huggingface" = (DummyMovies, "plot", "title")
   ∧ deref w DummyMovies = DUMMY_MOVIES w).
Proof.
  split.
  - intros Hne. unfold get_data_by_type.
    destruct (String.eqb_spec data_type "movies"); [done|]. done.
  - intros Hhf. unfold get_data_by_type. rewrite Hhf. done.
Qed.

(** C8 (as the code has it).  A request without [type] is served as
    [type=articles], and a request without [source] as [source=dummy]. *)
Theorem C8_defaults req (w : World) :
  (omits "type" req →
   get_processed_data req w =
   get_processed_data (with_param "type" "articles" req) w) ∧
  (omits "source" req →
   get_processed_data req w =
   get_processed_data (with_param "source" "dummy" req) w).
Proof.
  split; intros Hno; unfold get_processed_data;
    rewrite !process_data_run; unfold with_param;
    cbn [query_params base_url]; rewrite !params_get_snoc;
    simpl (_ =? _)%string; by rewrite (params_get_omitted _ _ _ Hno).
Qed.


(** C6 (as the code has it).  The endpoint always returns a payload: on
    success [success=true] with [data] holding [type], [source], [count],
    [texts] and [chart_url]; on any exception of the pipeline
    [success=false] with the exception's text under [error] and a fixed
    [message].  No exception reaches the host. *)
Theorem C6_response_shape req (w : World) :
  let resp := fst (get_processed_data req w) in
  (∃ dt src n texts url,
     resp = JObj [("success", JBool true);
                  ("data", JObj [("type", JStr dt); ("source", JStr src);
                                 ("count", JNum n); ("texts", JList texts);
                                 ("chart_url", JStr url)])]) ∨
  (∃ e, fst (process_data req w) = Raise e ∧
     resp = JObj [("success", JBool false);
                  ("error", JStr (str_exn e));
                  ("message",
                   JStr "Failed to process data and generate visualization")]).
Proof.
  unfold get_processed_data. rewrite process_data_run. cbn zeta.
  destruct (get_data_by_type _ _ _) as [[data tf] lf].
  destruct (getitems lf (take 3 _)); [|right; eauto].
  destruct (getitems tf _); [|right; eauto].
  destruct (embeddings_create _ _ _) as [[es|e] n]; [|right; eauto].
  destruct (attach_from _ _ _ _) as [[[]|e] items']; [|right; eauto].
  destruct (getitems lf items'); [|right; eauto].
  destruct (create_tsne_visualization _ _ _ _) as [[path|e] w4];
    [|right; eauto].
  left. cbn. eauto 10.
Qed.

(** C9.  The reduction step is the library's run on the batch with the
    fixed seed 42, two components and a perplexity that depends on the
    batch alone; the world contributes nothing but the state of the global
    generator.  So with a TSNE whose seeded runs do not depend on that
    state (scikit-learn's contract for an integer [random_state]), two
    reductions of the same batch give the same projection whatever the
    worlds they start from, and two renders of the same batch, titles and
    key end the same way and, when they succeed, save the same figure
    under the same path. *)
Theorem C9_reduction_deterministic
    (seeded : ∀ nc p s X (g1 g2 : Rng),
       fst (TSNE_fit_transform nc p (Some s) X g1)
       = fst (TSNE_fit_transform nc p (Some s) X g2))
    vs titles key (w1 w2 : World) :
  fst (tsne_reduce vs w1)
  = fst (TSNE_fit_transform 2 (Z.min 5 (Z.of_nat (length vs) - 1)) (Some 42)
           vs (rng w1)) ∧
  calls (snd (tsne_reduce vs w1))
  = (calls w1
     ++ [EvTSNE 2 (Z.min 5 (Z.of_nat (length vs) - 1)) (Some 42) vs])%list ∧
  fst (tsne_reduce vs w1) = fst (tsne_reduce vs w2) ∧
  fst (create_tsne_visualization vs titles key w1)
  = fst (create_tsne_visualization vs titles key w2) ∧
  ∀ p1 w1' p2 w2',
    create_tsne_visualization vs titles key w1 = (Ok p1, w1') →
    create_tsne_visualization vs titles key w2 = (Ok p2, w2') →
    p1 = p2 ∧
    ∃ fig, files w1' !! p1 = Some fig ∧ files w2' !! p2 = Some fig.
Proof.
  pose proof (seeded TSNE_COMPONENTS (tsne_perplexity vs) 42 vs
                (rng w1) (rng w2)) as Hseed.
  split.
  { unfold tsne_reduce, bind, modify. destruct w1; cbn.
    by destruct (TSNE_fit_transform _ _ _ _ _). }
  split.
  { unfold tsne_reduce, bind, modify. destruct w1; cbn.
    by destruct (TSNE_fit_transform _ _ _ _ _). }
  split.
  { unfold tsne_reduce, bind, modify. cbn.
    destruct (TSNE_fit_transform _ _ _ _ (rng w1)),
             (TSNE_fit_transform _ _ _ _ (rng w2)). cbn in *. done. }
  rewrite !create_tsne_visualization_run. cbn zeta.
  destruct (TSNE_fit_transform _ _ _ _ (rng w1)) as [r1 g1],
           (TSNE_fit_transform _ _ _ _ (rng w2)) as [r2 g2].
  cbn [fst] in Hseed. subst r2. destruct r1 as [pts|e].
  - destruct (annotate_from pts 0 titles) as [[[]|e] anns].
    + destruct (savefig_backend _ _) as [[]|e].
      * split; [done|]. intros p1 w1' p2 w2' [= <- <-] [= <- <-].
        split; [done|]. exists (plotted pts anns key).
        destruct w1, w2; cbn. by rewrite !lookup_insert_eq.
      * split; [done|]. intros; discriminate.
    + split; [done|]. intros; discriminate.
  - split; [done|]. intros; discriminate.
Qed.

(** C5.  The artifact path is [static/tsne_<key>.png], a function of the
    key alone.  With a seeded TSNE as in C9, rendering again with the same
    vectors, titles and key after a successful render succeeds, returns
    the same path and leaves the files on storage exactly as the first
    render left them: one file at that path, nothing added. *)
Theorem C5_render_idempotent
    (seeded : ∀ nc p s X (g1 g2 : Rng),
       fst (TSNE_fit_transform nc p (Some s) X g1)
       = fst (TSNE_fit_transform nc p (Some s) X g2))
    vs titles key (w w1 : World) path :
  create_tsne_visualization vs titles key w = (Ok path, w1) →
  path = "static/tsne_" ++ key ++ ".png" ∧
  is_Some (files w1 !! path) ∧
  dom (files w1) = {[path]} ∪ dom (files w) ∧
  ∃ w2, create_tsne_visualization vs titles key w1 = (Ok path, w2) ∧
        files w2 = files w1.
Proof.
  rewrite create_tsne_visualization_run. cbn zeta.
  destruct (TSNE_fit_transform _ _ _ _ (rng w)) as [[tsne_2d|e] g] eqn:Hfit;
    [|discriminate].
  destruct (annotate_from tsne_2d 0 titles) as [[[]|e] anns] eqn:Hann;
    [|discriminate].
  destruct (savefig_backend _ _) as [[]|e] eqn:Hsave; [|discriminate].
  intros [= <- <-]. split; [done|]. cbn [files set_figures set_files].
  split; [by rewrite lookup_insert_eq|].
  split; [by rewrite dom_insert_L|].
  rewrite create_tsne_visualization_run. cbn zeta.
  cbn [rng set_figures set_files log set_dirs set_rng figures files].
  pose proof (seeded TSNE_COMPONENTS (tsne_perplexity vs) 42 vs g (rng w))
    as Hsame.
  rewrite Hfit in Hsame.
  destruct (TSNE_fit_transform _ _ _ _ g) as [r g']. cbn in Hsame.
  subst r. rewrite Hann, Hsave. eexists. split; [done|].
  cbn [files set_figures set_files]. by rewrite insert_insert_eq.
Qed.

(** C2 (as the code has it).  With no record or one record the pipeline
    does not stop early: the provider is called with the texts (none, or
    one); when it returns that many vectors TSNE is invoked with
    perplexity N - 1, that is -1 or 0; and when TSNE raises, the request
    fails with that exception, whose text is what the endpoint reports. *)
Theorem C2_small_datasets req (w : World) data tf lf texts titles :
  get_data_by_type w (params_get (query_params req) "type" "articles")
    (params_get (query_params req) "source" "dummy") = (data, tf, lf) →
  (length (deref w data) ≤ 1)%nat →
  getitems tf (deref w data) = Ok texts →
  getitems lf (deref w data) = Ok titles →
  (∃ later,
     calls (snd (process_data req w)) =
     (calls w ++ EvEmbed EMBEDDING_MODEL texts :: later)%list) ∧
  ∀ es n,
    embeddings_create EMBEDDING_MODEL texts (net w) = (Ok es, n) →
    length es = length (deref w data) →
    (∃ later,
       calls (snd (process_data req w)) =
       (calls w ++ EvEmbed EMBEDDING_MODEL texts
          :: EvTSNE 2 (Z.of_nat (length (deref w data)) - 1) (Some 42) es
          :: later)%list) ∧
    ∀ e g,
      TSNE_fit_transform 2 (Z.of_nat (length (deref w data)) - 1) (Some 42)
        es (rng w) = (Raise e, g) →
      fst (process_data req w) = Raise e ∧
      json_get "error" (fst (get_processed_data req w))
      = Some (JStr (str_exn e)).
Proof.
  intros Hres Hsmall Htexts Htitles.
  destruct (get_data_by_type_fields _ _ _ _ _ _ Hres) as [_ Hlf].
  unfold get_processed_data. rewrite process_data_run. cbn zeta.
  rewrite Hres, (getitems_take _ _ _ 3 Htitles), Htexts.
  destruct (embeddings_create _ _ _) as [[es|e] n] eqn:Hemb.
  2:{ split; [by exists []|]. intros; discriminate. }
  pose proof (attach_keeps_fields lf es (deref w data) (deref w data) Hlf)
    as Hkeep.
  destruct (attach_from es 0 (deref w data) (deref w data))
    as [[[]|e] items'] eqn:Hatt; cbn [snd] in Hkeep.
  2:{ split; [cbn; rewrite calls_set_dataset; by exists []|].
      intros es' n' [= <- <-] Hlen.
      destruct (attach_from_ok es (deref w data) 0 (deref w data))
        as [Hok _]; [lia|]. rewrite Hatt in Hok. discriminate. }
  rewrite Hkeep, Htitles.
  set (key := params_get _ _ _ ++ "_" ++ params_get _ _ _).
  set (w3 := set_dataset data items' _).
  destruct (visualization_calls es titles key w3) as [later Hcalls].
  assert (calls w3 = (calls w ++ [EvEmbed EMBEDDING_MODEL texts])%list) as Hw3
    by (unfold w3; by rewrite calls_set_dataset).
  assert (rng w3 = rng w) as Hrng by (unfold w3; by rewrite rng_set_dataset).
  rewrite Hw3, <- app_assoc in Hcalls. cbn [app] in Hcalls.
  assert (calls (snd
      (let (r1, w4) := create_tsne_visualization es titles key w3 in
       match r1 with
       | Ok image_path =>
           (Ok (JObj [("type", JStr (params_get (query_params req) "type" "articles"));
                      ("source", JStr (params_get (query_params req) "source" "dummy"));
                      ("count", JNum (Z.of_nat (length (deref w4 data))));
                      ("texts", JList (map JVal texts));
                      ("chart_url",
                       JStr (rstrip "/" (base_url req) ++ "/static/"
                             ++ basename image_path))]), w4)
       | Raise e => (Raise e, w4)
       end)) = calls (snd (create_tsne_visualization es titles key w3))) as Hsame.
  { by destruct (create_tsne_visualization es titles key w3) as [[?|?] ?]. }
  split.
  - rewrite Hsame, Hcalls. eauto.
  - intros es' n' [= <- <-] Hlen. split.
    + rewrite Hsame, Hcalls.
      replace (tsne_perplexity es)
        with (Z.of_nat (length (deref w data)) - 1)
        by (unfold tsne_perplexity, MIN_PERPLEXITY; lia).
      eauto.
    + intros e g Hfit.
      assert (fst (create_tsne_visualization es titles key w3) = Raise e)
        as Hraise.
      { apply (visualization_raise _ _ _ _ _ g). rewrite Hrng.
        replace (tsne_perplexity es)
          with (Z.of_nat (length (deref w data)) - 1)
          by (unfold tsne_perplexity, MIN_PERPLEXITY; lia).
        done. }
      destruct (create_tsne_visualization es titles key w3) as [[?|?] ?];
        cbn in Hraise; [discriminate|]. injection Hraise as ->. done.
Qed.

(** C7 (as the code has it).  A run leaves the two lists it did not
    resolve as they were, and in the resolved list it keeps the number and
    order of the records and every field but ["embedding"].  It does write
    to the records: once the provider has returned a vector for every
    record, each record holds its vector under ["embedding"], and that
    outlives the request.  Nothing is read back from it: every run that
    reaches the embedding stage calls the provider again. *)
Theorem C7_run_effects req (w : World) data tf lf :
  get_data_by_type w (params_get (query_params req) "type" "articles")
    (params_get (query_params req) "source" "dummy") = (data, tf, lf) →
  (∀ r, r ≠ data → deref (snd (process_data req w)) r = deref w r) ∧
  Forall2 same_fields (deref w data) (deref (snd (process_data req w)) data) ∧
  ∀ t3 texts,
    getitems lf (take 3 (deref w data)) = Ok t3 →
    getitems tf (deref w data) = Ok texts →
    (∃ later,
       calls (snd (process_data req w)) =
       (calls w ++ EvEmbed EMBEDDING_MODEL texts :: later)%list) ∧
    ∀ es n,
      embeddings_create EMBEDDING_MODEL texts (net w) = (Ok es, n) →
      (length (deref w data) ≤ length es)%nat →
      ∀ i item, deref w data !! i = Some item →
        ∃ e, es !! i = Some e ∧
          deref (snd (process_data req w)) data !! i
          = Some (<["embedding" := VVec e]> item).
Proof.
  intros Hres.
  destruct (process_data_datasets req w data tf lf Hres) as [Hother Hdata].
  cbn zeta in *. split; [done|]. split.
  - destruct Hdata as [->|(texts & es & n & _ & _ & ->)].
    + apply same_fields_all.
    + apply attach_from_same_fields, same_fields_all.
  - intros t3 texts H3 Htexts.
    destruct (process_data_embeds req w data tf lf t3 texts Hres H3 Htexts)
      as [Hcalls Hstore].
    split; [done|]. intros es n Hemb Hlen i item Hi.
    rewrite (Hstore es n Hemb).
    destruct (attach_from_ok es (deref w data) 0 (deref w data)) as [_ Hget];
      [lia|].
    rewrite (Hget i item Hi).
    pose proof (lookup_lt_Some _ _ _ Hi) as Hlt.
    rewrite bool_decide_eq_true_2 by lia.
    destruct (es !! i) as [e|] eqn:He.
    + eauto.
    + apply lookup_ge_None in He. lia.
Qed.

(** C1.  For a dataset of N >= 2 records whose records have the fields of
    their type, with a provider that returns one vector per text, a
    reducer that returns one point per vector and a backend that writes
    the file, the request succeeds and reports N; the embedding batch, the
    projection and the annotations of the saved figure all have N
    elements; and position is kept throughout: the i-th text is the i-th
    record's, the i-th annotation carries the i-th record's title at the
    i-th point, and the i-th vector is the one stored on the i-th
    record. *)
Theorem C1_positional_order req (w : World) data tf lf texts titles es n
    pts g :
  let key := params_get (query_params req) "type" "articles" ++ "_"
             ++ params_get (query_params req) "source" "dummy" in
  get_data_by_type w (params_get (query_params req) "type" "articles")
    (params_get (query_params req) "source" "dummy") = (data, tf, lf) →
  (2 ≤ length (deref w data))%nat →
  getitems tf (deref w data) = Ok texts →
  getitems lf (deref w data) = Ok titles →
  embeddings_create EMBEDDING_MODEL texts (net w) = (Ok es, n) →
  length es = length texts →
  TSNE_fit_transform TSNE_COMPONENTS (tsne_perplexity es) (Some 42) es (rng w)
  = (Ok pts, g) →
  length pts = length es →
  (∀ fig, savefig_backend (image_path_of key) fig = Ok tt) →
  ∃ resp w' fig,
    process_data req w = (Ok resp, w') ∧
    json_get "count" resp = Some (JNum (Z.of_nat (length (deref w data)))) ∧
    files w' !! image_path_of key = Some fig ∧
    length es = length (deref w data) ∧
    length pts = length (deref w data) ∧
    length (annotations fig) = length (deref w data) ∧
    scatter_xs fig = map fst pts ∧
    scatter_ys fig = map snd pts ∧
    ∀ i item, deref w data !! i = Some item →
      ∃ text title e xy,
        item !! tf = Some text ∧ texts !! i = Some text ∧
        item !! lf = Some title ∧
        es !! i = Some e ∧ pts !! i = Some xy ∧
        annotations fig !! i = Some (title, xy) ∧
        deref w' data !! i = Some (<["embedding" := VVec e]> item).
Proof.
  intros key Hres HN Htexts Htitles Hemb Hes Hfit Hpts Hsave.
  destruct (get_data_by_type_fields _ _ _ _ _ _ Hres) as [_ Hlf].
  destruct (getitems_lookup _ _ _ Htexts) as [Hlen_texts Hget_texts].
  destruct (getitems_lookup _ _ _ Htitles) as [Hlen_titles Hget_titles].
  rewrite process_data_run. cbn zeta.
  rewrite Hres, (getitems_take _ _ _ 3 Htitles), Htexts, Hemb.
  pose proof (attach_keeps_fields lf es (deref w data) (deref w data) Hlf)
    as Hkeep.
  destruct (attach_from_ok es (deref w data) 0 (deref w data))
    as [Hok Hstored]; [lia|].
  pose proof (attach_from_length es (deref w data) 0 (deref w data))
    as Hitems.
  destruct (attach_from es 0 (deref w data) (deref w data)) as [r items'].
  cbn [fst snd] in Hkeep, Hok, Hstored, Hitems. subst r.
  rewrite Hkeep, Htitles.
  fold key. set (w3 := set_dataset data items' _).
  pose proof (create_tsne_visualization_run es titles key w3) as Hrun.
  cbn zeta in Hrun.
  assert (rng w3 = rng w) as Hrng by (unfold w3; by rewrite rng_set_dataset).
  rewrite Hrng, Hfit in Hrun.
  rewrite (annotate_from_ok pts titles 0) in Hrun by lia.
  rewrite Hsave in Hrun.
  pose proof (visualization_deref es titles key w3 data) as Hd.
  rewrite Hrun in Hd. cbn [snd] in Hd.
  assert (deref w3 data = items') as Hw3
    by (unfold w3; apply deref_set_dataset).
  rewrite Hw3 in Hd.
  rewrite Hrun. eexists _, _, (plotted pts (zip titles (drop 0 pts)) key).
  split; [reflexivity|]. rewrite Hd.
  split.
  { cbn. rewrite Hitems. done. }
  split; [cbn; by rewrite lookup_insert_eq|].
  split; [lia|]. split; [lia|].
  split; [cbn; rewrite length_zip, drop_0; lia|].
  split; [done|]. split; [done|].
  intros i item Hi.
  destruct (Hget_texts i item Hi) as (text & Htext & Htexti).
  destruct (Hget_titles i item Hi) as (title & Htitle & Htitlei).
  pose proof (lookup_lt_Some _ _ _ Hi) as Hlt.
  destruct (lookup_lt_is_Some_2 es i) as [e He]; [lia|].
  destruct (lookup_lt_is_Some_2 pts i) as [xy Hxy]; [lia|].
  exists text, title, e, xy. repeat split; try done.
  - cbn. rewrite drop_0. apply lookup_zip_with_Some. eauto.
  - rewrite (Hstored i item Hi), bool_decide_eq_true_2 by lia. by rewrite He.
Qed.

End Claims.

(** * Further properties of the pipeline *)

(** The storing loop in general: which records it has written when it
    stops, and when it stops with an [IndexError]. *)
Lemma attach_from_lookup es items i data :
  ∀ j item, data !! j = Some item →
    snd (attach_from es i items data) !! j =
    Some (if bool_decide (i ≤ j < i + length items)%nat
          then match es !! j with
               | Some e => <["embedding" := VVec e]> item
               | None => item
               end
          else item).
Proof.
  revert i data. induction items as [|x items IH]; cbn; intros i data j item Hj.
  - rewrite bool_decide_eq_false_2; [done|lia].
  - unfold list_index. destruct (es !! i) as [v|] eqn:Hv; cbn.
    + destruct (decide (i = j)) as [<-|Hne].
      * rewrite (IH (S i) _ i (<["embedding" := VVec v]> item))
          by (by rewrite list_lookup_alter_eq, Hj).
        rewrite bool_decide_eq_false_2 by lia.
        rewrite bool_decide_eq_true_2 by lia. by rewrite Hv.
      * rewrite (IH (S i) _ j item) by (by rewrite list_lookup_alter_ne).
        destruct (decide (S i ≤ j < S i + length items)%nat).
        -- rewrite !bool_decide_eq_true_2 by lia. done.
        -- rewrite !bool_decide_eq_false_2 by lia. done.
    + rewrite Hj. apply lookup_ge_None in Hv.
      destruct (bool_decide _) eqn:Hb; [|done].
      apply bool_decide_eq_true_1 in Hb.
      by rewrite (proj2 (lookup_ge_None es j)) by lia.
Qed.

Lemma attach_from_short es items i data :
  (length es < i + length items)%nat → (i ≤ length es)%nat →
  fst (attach_from es i items data)
  = Raise (IndexError "list index out of range").
Proof.
  revert i data. induction items as [|x items IH]; cbn; intros i data Hlt Hle.
  - lia.
  - unfold list_index. destruct (es !! i) as [v|] eqn:Hv; cbn; [|done].
    apply lookup_lt_Some in Hv. apply IH; lia.
Qed.

(** Strings: slashes, [basename] and [rstrip]. *)
Lemma append_assoc (a b c : string) : (a ++ b) ++ c = a ++ b ++ c.
Proof.
  induction a as [|x a IH]; [done|].
  change ((String x a ++ b) ++ c) with (String x ((a ++ b) ++ c)).
  by rewrite IH.
Qed.

Lemma has_slash_app a b : has_slash (a ++ b) = has_slash a || has_slash b.
Proof.
  induction a as [|c a IH]; [done|].
  change (String c a ++ b) with (String c (a ++ b)).
  cbn [has_slash]. rewrite IH. by destruct (Ascii.eqb _ _).
Qed.

Lemma basename_from_no_slash tail p :
  has_slash p = false → basename_from tail p = tail.
Proof.
  revert tail. induction p as [|c p IH]; cbn; intros tail H; [done|].
  apply orb_false_iff in H as [-> H]. by apply IH.
Qed.

Lemma basename_image_path key :
  has_slash key = false →
  basename (image_path_of key) = "tsne_" ++ key ++ ".png".
Proof.
  intros H. unfold basename, image_path_of.
  change ("static/tsne_" ++ key ++ ".png")
    with ("static/" ++ "tsne_" ++ key ++ ".png").
  set (r := "tsne_" ++ key ++ ".png").
  change ("static/" ++ r)
    with (String "s" (String "t" (String "a" (String "t" (String "i"
           (String "c" (String "/" r))))))).
  cbn [basename_from Ascii.eqb Bool.eqb].
  apply basename_from_no_slash. unfold r. by rewrite !has_slash_app, H.
Qed.

Lemma ends_with_slash_cons a s :
  ends_with_slash (String a s) =
  match s with
  | EmptyString => Ascii.eqb a "/"
  | String _ _ => ends_with_slash s
  end.
Proof.
  unfold ends_with_slash. destruct s as [|b s]; [done|].
  cbn [list_ascii_of_string rev].
  destruct (rev (list_ascii_of_string s) ++ [b])%list as [|c l] eqn:Hr; [|done].
  by apply app_eq_nil in Hr as [_ ?].
Qed.

Lemma rstrip_no_trailing_slash s : ends_with_slash (rstrip "/" s) = false.
Proof.
  induction s as [|a s IH]; [done|]. cbn [rstrip].
  destruct (rstrip "/" s) as [|b r] eqn:Hs.
  - destruct (Ascii.eqb a "/") eqn:Ha; [done|].
    by rewrite ends_with_slash_cons.
  - by rewrite ends_with_slash_cons.
Qed.

Section Further.
Context `{C : Collaborators}.

(** What one call of [create_tsne_visualization] does to the figures and
    the files, case by case. *)
Lemma visualization_outcome vs titles key (w : World) :
  ∃ r w',
    create_tsne_visualization vs titles key w = (r, w') ∧
    net w' = net w ∧
    match r with
    | Ok p =>
        p = image_path_of key ∧ figures w' = figures w ∧
        STATIC_DIR ∈ dirs w' ∧
        ∃ pts g anns,
          TSNE_fit_transform TSNE_COMPONENTS (tsne_perplexity vs) (Some 42)
            vs (rng w) = (Ok pts, g) ∧
          annotate_from pts 0 titles = (Ok tt, anns) ∧
          files w' = <[p := plotted pts anns key]> (files w)
    | Raise e =>
        files w' = files w ∧
        ((∃ g, TSNE_fit_transform TSNE_COMPONENTS (tsne_perplexity vs)
                 (Some 42) vs (rng w) = (Raise e, g))
         ∧ figures w' = figures w ∧ dirs w' = dirs w
         ∨ ∃ pts g fig,
             TSNE_fit_transform TSNE_COMPONENTS (tsne_perplexity vs)
               (Some 42) vs (rng w) = (Ok pts, g) ∧
             figures w' = fig :: figures w)
    end.
Proof.
  rewrite create_tsne_visualization_run. cbn zeta.
  destruct (TSNE_fit_transform _ _ _ _ _) as [[pts|e] g] eqn:Hfit.
  - destruct (annotate_from pts 0 titles) as [[[]|e] anns] eqn:Hann.
    + destruct (savefig_backend _ _) as [[]|e]; eexists _, _;
        (split; [reflexivity|]); (split; [by destruct w|]).
      * split; [done|]. split; [by destruct w|].
        split; [destruct w; cbn; set_solver|].
        exists pts, g, anns. repeat split; by destruct w.
      * split; [by destruct w|]. right. exists pts, g. eexists.
        split; [done|]. by destruct w.
    + eexists _, _. split; [reflexivity|]. split; [by destruct w|].
      split; [by destruct w|]. right. exists pts, g. eexists.
      split; [done|]. by destruct w.
  - eexists _, _. split; [reflexivity|]. split; [by destruct w|].
    split; [by destruct w|]. left. split; [eauto|]. by destruct w.
Qed.

(** X1.  Start-up swallows every load failure: a bundled file that cannot
    be read leaves its list empty (and a file that is read is kept as it
    is), a failed Hugging Face download makes every movies request resolve
    to the bundled movies, and a request for articles after a failed load
    still calls the provider, with no text. *)
Theorem X1_startup_swallows_failures read hf (n : Net) (g : Rng) :
  (∀ e, read "data/articles.json" = Raise e →
        DUMMY_ARTICLES (startup read hf n g) = []) ∧
  (∀ e, read "data/movies.json" = Raise e →
        DUMMY_MOVIES (startup read hf n g) = []) ∧
  (∀ d, read "data/articles.json" = Ok d →
        DUMMY_ARTICLES (startup read hf n g) = d) ∧
  (∀ d, read "data/movies.json" = Ok d →
        DUMMY_MOVIES (startup read hf n g) = d) ∧
  (∀ e source, hf = Raise e →
     get_data_by_type (startup read hf n g) "movies" source
     = (DummyMovies, "plot", "title")) ∧
  (∀ e req, read "data/articles.json" = Raise e →
     params_get (query_params req) "type" "articles" ≠ "movies" →
     ∃ later,
       calls (snd (process_data req (startup read hf n g)))
       = EvEmbed EMBEDDING_MODEL [] :: later).
Proof.
  unfold startup, load_json_data. cbn [DUMMY_ARTICLES DUMMY_MOVIES].
  repeat split.
  - by intros e ->.
  - by intros e ->.
  - by intros d ->.
  - by intros d ->.
  - intros e source ->. unfold get_data_by_type. cbn.
    by destruct (_ =? _)%string.
  - intros e req Hread Htype.
    set (w := mkWorld _ _ _ _ _ _ _ _ _).
    assert (get_data_by_type w
              (params_get (query_params req) "type" "articles")
              (params_get (query_params req) "source" "dummy")
            = (DummyArticles, "content", "title")) as Hres.
    { unfold get_data_by_type.
      by destruct (String.eqb_spec
                     (params_get (query_params req) "type" "articles")
                     "movies"). }
    assert (deref w DummyArticles = []) as Hempty
      by (unfold w; cbn; by rewrite Hread).
    destruct (process_data_embeds req w DummyArticles "content" "title"
                [] [] Hres) as [[later Hcalls] _].
    + by rewrite Hempty.
    + by rewrite Hempty.
    + exists later. rewrite Hcalls. done.
Qed.

(** X3.  [create_tsne_visualization] closes its figure only when it
    succeeds.  When TSNE raises, no figure was opened; when TSNE returns
    and a later step raises (a title with no point, or the backend), one
    more figure is left open than before the call, and no file is
    written. *)
Theorem X3_figure_left_open_on_failure vs titles key (w : World) r w' :
  create_tsne_visualization vs titles key w = (r, w') →
  match r with
  | Ok _ => figures w' = figures w
  | Raise e =>
      files w' = files w ∧
      ((∃ g, TSNE_fit_transform TSNE_COMPONENTS (tsne_perplexity vs)
               (Some 42) vs (rng w) = (Raise e, g))
       ∧ figures w' = figures w
       ∨ (∃ pts g, TSNE_fit_transform TSNE_COMPONENTS (tsne_perplexity vs)
                     (Some 42) vs (rng w) = (Ok pts, g))
         ∧ length (figures w') = S (length (figures w)))
  end.
Proof.
  intros Hrun.
  destruct (visualization_outcome vs titles key w) as (r0 & w0 & H0 & _ & Hout).
  rewrite Hrun in H0. injection H0 as <- <-.
  destruct r as [p|e].
  - by destruct Hout as (_ & Hfig & _).
  - destruct Hout as [Hfiles [(Hfit & Hfig & _)|(pts & g & fig & Hfit & Hfig)]].
    + split; [done|]. by left.
    + split; [done|]. right. split; [eauto|]. by rewrite Hfig.
Qed.

(** X4.  A provider that returns fewer vectors than there are records
    makes the request fail with [IndexError], after the records that did
    get a vector have been written and before TSNE is ever called; no
    file is written. *)
Theorem X4_too_few_vectors req (w : World) data tf lf t3 texts es n :
  get_data_by_type w (params_get (query_params req) "type" "articles")
    (params_get (query_params req) "source" "dummy") = (data, tf, lf) →
  getitems lf (take 3 (deref w data)) = Ok t3 →
  getitems tf (deref w data) = Ok texts →
  embeddings_create EMBEDDING_MODEL texts (net w) = (Ok es, n) →
  (length es < length (deref w data))%nat →
  fst (process_data req w) = Raise (IndexError "list index out of range") ∧
  calls (snd (process_data req w))
  = (calls w ++ [EvEmbed EMBEDDING_MODEL texts])%list ∧
  files (snd (process_data req w)) = files w ∧
  ∀ i item, deref w data !! i = Some item →
    deref (snd (process_data req w)) data !! i
    = Some (match es !! i with
            | Some e => <["embedding" := VVec e]> item
            | None => item
            end).
Proof.
  intros Hres H3 Htexts Hemb Hshort.
  rewrite process_data_run. cbn zeta. rewrite Hres, H3, Htexts, Hemb.
  pose proof (attach_from_short es (deref w data) 0 (deref w data)) as Hraise.
  pose proof (attach_from_lookup es (deref w data) 0 (deref w data)) as Hget.
  destruct (attach_from es 0 (deref w data) (deref w data)) as [r items'].
  cbn [fst snd] in Hraise, Hget. rewrite Hraise by lia. cbn [fst snd].
  rewrite calls_set_dataset, files_set_dataset, deref_set_dataset.
  repeat split; try done.
  intros i item Hi. rewrite (Hget i item Hi).
  apply lookup_lt_Some in Hi. by rewrite bool_decide_eq_true_2 by lia.
Qed.

Lemma visualization_ok_calls vs titles key (w w' : World) p :
  create_tsne_visualization vs titles key w = (Ok p, w') →
  calls w' =
  (calls w ++ [EvTSNE TSNE_COMPONENTS (tsne_perplexity vs) (Some 42) vs;
               EvSavefig (image_path_of key)])%list.
Proof.
  rewrite create_tsne_visualization_run. cbn zeta.
  destruct (TSNE_fit_transform _ _ _ _ _) as [[pts|e] g]; [|discriminate].
  destruct (annotate_from pts 0 titles) as [[[]|e] anns]; [|discriminate].
  destruct (savefig_backend _ _) as [[]|e]; [|discriminate].
  intros [= <- <-]. destruct w. cbn. by rewrite <- app_assoc.
Qed.

(** X6.  What a successful request guarantees, with no assumption on the
    collaborators.  The provider, called on the records' texts, answered
    with at least one vector per record, and each record now holds the
    vector of its position in that answer; TSNE, called on the whole
    answer with perplexity [min(5, M - 1)], two components and seed 42,
    answered with the points that the saved figure scatters; the payload
    has the five keys with [count] the number of records and [texts] the
    texts in order; these two calls and the backend's, at the artifact
    path, are the only calls, in this order; the provider's state is the
    one its call left, the artifact exists at that path and no figure is
    left open. *)
Theorem X6_success_guarantees req (w w' : World) data tf lf resp :
  let data_type := params_get (query_params req) "type" "articles" in
  let source := params_get (query_params req) "source" "dummy" in
  let key := data_type ++ "_" ++ source in
  get_data_by_type w data_type source = (data, tf, lf) →
  process_data req w = (Ok resp, w') →
  ∃ texts es n pts g,
    getitems tf (deref w data) = Ok texts ∧
    embeddings_create EMBEDDING_MODEL texts (net w) = (Ok es, n) ∧
    TSNE_fit_transform 2 (Z.min 5 (Z.of_nat (length es) - 1)) (Some 42) es
      (rng w) = (Ok pts, g) ∧
    net w' = n ∧
    length texts = length (deref w data) ∧
    (length (deref w data) ≤ length es)%nat ∧
    resp = JObj [("type", JStr data_type);
                 ("source", JStr source);
                 ("count", JNum (Z.of_nat (length (deref w data))));
                 ("texts", JList (map JVal texts));
                 ("chart_url",
                  JStr (rstrip "/" (base_url req) ++ "/static/"
                        ++ basename (image_path_of key)))] ∧
    calls w' =
    (calls w ++ [EvEmbed EMBEDDING_MODEL texts;
                 EvTSNE 2 (Z.min 5 (Z.of_nat (length es) - 1)) (Some 42) es;
                 EvSavefig (image_path_of key)])%list ∧
    (∃ fig, files w' !! image_path_of key = Some fig ∧
       scatter_xs fig = map fst pts ∧ scatter_ys fig = map snd pts ∧
       length (annotations fig) = length (deref w data)) ∧
    figures w' = figures w ∧
    ∀ i item, deref w data !! i = Some item →
      ∃ e, es !! i = Some e ∧
        deref w' data !! i = Some (<["embedding" := VVec e]> item).
Proof.
  intros data_type source key Hres.
  rewrite process_data_run. cbn zeta. fold data_type source key.
  rewrite Hres.
  destruct (getitems lf (take 3 _)); [|discriminate].
  destruct (getitems tf _) as [texts|] eqn:Htexts; [|discriminate].
  destruct (embeddings_create _ _ _) as [[es|e] n] eqn:Hemb; [|discriminate].
  pose proof (attach_from_lookup es (deref w data) 0 (deref w data)) as Hget.
  pose proof (attach_from_length es (deref w data) 0 (deref w data)) as Hlen.
  destruct (Nat.le_gt_cases (length (deref w data)) (length es)) as [Hle|Hgt].
  2:{ pose proof (attach_from_short es (deref w data) 0 (deref w data)) as Hr.
      destruct (attach_from es 0 _ _) as [r ?]. cbn in Hr.
      rewrite Hr by lia. discriminate. }
  destruct (attach_from es 0 (deref w data) (deref w data))
    as [[[]|e] items']; [|discriminate].
  cbn [fst snd] in Hget, Hlen.
  destruct (getitems lf items') as [titles|] eqn:Htitles; [|discriminate].
  set (w3 := set_dataset data items' _).
  pose proof (visualization_deref es titles key w3 data) as Hd.
  destruct (visualization_outcome es titles key w3)
    as (r & w4 & Hrun & Hnet & Hout).
  pose proof (visualization_ok_calls es titles key w3 w4) as Hcalls.
  rewrite Hrun in *. cbn [snd] in Hd.
  destruct r as [p|e]; [|discriminate].
  destruct Hout as (-> & Hfig & _ & pts & g & anns & Hfit & Hann & Hfiles).
  intros [= <- <-].
  assert (deref w3 data = items') as Hw3
    by (unfold w3; apply deref_set_dataset).
  assert (rng w3 = rng w) as Hrng by (unfold w3; by rewrite rng_set_dataset).
  rewrite Hw3 in Hd. rewrite Hrng in Hfit.
  apply annotate_from_length in Hann.
  destruct (getitems_lookup _ _ _ Htitles) as [Hlen_titles _].
  exists texts, es, n, pts, g.
  split; [done|]. split; [done|]. split; [exact Hfit|].
  split; [rewrite Hnet; unfold w3; by destruct data|].
  split; [by destruct (getitems_lookup _ _ _ Htexts)|].
  split; [done|]. rewrite Hd, Hlen. split; [done|].
  split.
  { rewrite (Hcalls _ eq_refl). unfold w3. rewrite calls_set_dataset. cbn.
    by rewrite <- app_assoc. }
  split.
  { exists (plotted pts anns key). rewrite Hfiles, lookup_insert_eq.
    repeat split; try done. cbn [plotted annotations]. congruence. }
  split; [rewrite Hfig; unfold w3; by destruct data|].
  intros i item Hi. rewrite (Hget i item Hi).
  pose proof (lookup_lt_Some _ _ _ Hi) as Hlt.
  rewrite bool_decide_eq_true_2 by lia.
  destruct (lookup_lt_is_Some_2 es i) as [e He]; [lia|].
  rewrite He. eauto.
Qed.

(** X8.  A request that fails leaves the files on storage exactly as they
    were: the artifact is written only by a request that succeeds. *)
Theorem X8_failure_writes_no_file req (w : World) :
  json_get "success" (fst (get_processed_data req w)) = Some (JBool false) →
  files (snd (get_processed_data req w)) = files w.
Proof.
  unfold get_processed_data. rewrite process_data_run. cbn zeta.
  destruct (get_data_by_type _ _ _) as [[data tf] lf].
  destruct (getitems lf (take 3 _)); [|done].
  destruct (getitems tf _) as [texts|]; [|done].
  destruct (embeddings_create _ _ _) as [[es|e] n]; [|done].
  destruct (attach_from es 0 _ _) as [[[]|e] items'];
    [|intros _; cbn; by rewrite files_set_dataset].
  destruct (getitems lf items') as [titles|];
    [|intros _; cbn; by rewrite files_set_dataset].
  set (key := params_get _ _ _ ++ "_" ++ params_get _ _ _).
  set (w3 := set_dataset data items' _).
  destruct (visualization_outcome es titles key w3)
    as (r & w4 & Hrun & _ & Hout).
  rewrite Hrun. destruct r as [p|e]; [discriminate|].
  intros _. cbn. destruct Hout as [-> _]. unfold w3.
  by rewrite files_set_dataset.
Qed.

(** X9.  When the provider raises, the request fails at once with that
    exception: the provider has been called once and is not called again,
    TSNE is not called, no record, figure or file is touched, and the
    endpoint reports the exception's text. *)
Theorem X9_provider_failure req (w : World) data tf lf t3 texts e n :
  get_data_by_type w (params_get (query_params req) "type" "articles")
    (params_get (query_params req) "source" "dummy") = (data, tf, lf) →
  getitems lf (take 3 (deref w data)) = Ok t3 →
  getitems tf (deref w data) = Ok texts →
  embeddings_create EMBEDDING_MODEL texts (net w) = (Raise e, n) →
  process_data req w
  = (Raise e, set_net n (log (EvEmbed EMBEDDING_MODEL texts) w)) ∧
  calls (snd (process_data req w))
  = (calls w ++ [EvEmbed EMBEDDING_MODEL texts])%list ∧
  (∀ r, deref (snd (process_data req w)) r = deref w r) ∧
  figures (snd (process_data req w)) = figures w ∧
  files (snd (process_data req w)) = files w ∧
  json_get "error" (fst (get_processed_data req w)) = Some (JStr (str_exn e)).
Proof.
  intros Hres H3 Htexts Hemb. unfold get_processed_data.
  rewrite process_data_run. cbn zeta. rewrite Hres, H3, Htexts, Hemb.
  repeat split.
Qed.

(** X10.  Whatever a request did, the next request reads what it would
    have read before: every type and source resolves to the same list
    with the same fields, and every field other than ["embedding"] of
    every list reads the same, so the texts that are embedded and the
    titles that are drawn do not depend on earlier requests. *)
Theorem X10_later_requests_unaffected req (w : World) :
  (∀ t s,
     get_data_by_type (snd (process_data req w)) t s = get_data_by_type w t s)
  ∧ (∀ r, length (deref (snd (process_data req w)) r) = length (deref w r))
  ∧ ∀ r field, field ≠ "embedding" →
      getitems field (deref (snd (process_data req w)) r)
      = getitems field (deref w r).
Proof.
  destruct (get_data_by_type w
              (params_get (query_params req) "type" "articles")
              (params_get (query_params req) "source" "dummy"))
    as [[data tf] lf] eqn:Hres.
  destruct (process_data_datasets req w data tf lf Hres) as [Hother Hdata].
  cbn zeta in *.
  assert (∀ r, Forall2 same_fields (deref w r)
                 (deref (snd (process_data req w)) r)) as Hsame.
  { intros r.
    assert (r = data ∨ r ≠ data) as [->|Hne]
      by (destruct r, data; (by left) || (by right)).
    - destruct Hdata as [->|(texts & es & n & _ & _ & ->)].
      + apply same_fields_all.
      + apply attach_from_same_fields, same_fields_all.
    - rewrite (Hother r Hne). apply same_fields_all. }
  assert (∀ r, length (deref (snd (process_data req w)) r)
               = length (deref w r)) as Hlen.
  { intros r. symmetry. apply (Forall2_length _ _ _ (Hsame r)). }
  split; [|split; [done|]].
  - intros t s. unfold get_data_by_type.
    replace (truthy (HUGGING_FACE_MOVIES (snd (process_data req w))))
      with (truthy (HUGGING_FACE_MOVIES w)); [done|].
    specialize (Hlen HuggingFaceMovies). cbn [deref] in Hlen.
    destruct (HUGGING_FACE_MOVIES w), (HUGGING_FACE_MOVIES _); done.
  - intros r field Hne. by apply getitems_same_fields.
Qed.

(** X5.  A provider that returns more vectors than there are records is
    not noticed: with a reducer that returns one point per vector and a
    backend that writes, the request succeeds and reports the number of
    records, while the saved figure scatters one point per returned vector
    and annotates only as many as there are records. *)
Theorem X5_surplus_vectors req (w : World) data tf lf texts titles es n
    pts g :
  let key := params_get (query_params req) "type" "articles" ++ "_"
             ++ params_get (query_params req) "source" "dummy" in
  get_data_by_type w (params_get (query_params req) "type" "articles")
    (params_get (query_params req) "source" "dummy") = (data, tf, lf) →
  getitems tf (deref w data) = Ok texts →
  getitems lf (deref w data) = Ok titles →
  embeddings_create EMBEDDING_MODEL texts (net w) = (Ok es, n) →
  (length (deref w data) < length es)%nat →
  TSNE_fit_transform TSNE_COMPONENTS (tsne_perplexity es) (Some 42) es (rng w)
  = (Ok pts, g) →
  length pts = length es →
  (∀ fig, savefig_backend (image_path_of key) fig = Ok tt) →
  ∃ resp w' fig,
    process_data req w = (Ok resp, w') ∧
    json_get "count" resp = Some (JNum (Z.of_nat (length (deref w data)))) ∧
    files w' !! image_path_of key = Some fig ∧
    length (scatter_xs fig) = length es ∧
    length (annotations fig) = length (deref w data) ∧
    (length (annotations fig) < length (scatter_xs fig))%nat.
Proof.
  intros key Hres Htexts Htitles Hemb Hmore Hfit Hpts Hsave.
  destruct (get_data_by_type_fields _ _ _ _ _ _ Hres) as [_ Hlf].
  destruct (getitems_lookup _ _ _ Htitles) as [Hlen_titles _].
  rewrite process_data_run. cbn zeta.
  rewrite Hres, (getitems_take _ _ _ 3 Htitles), Htexts, Hemb.
  pose proof (attach_keeps_fields lf es (deref w data) (deref w data) Hlf)
    as Hkeep.
  destruct (attach_from_ok es (deref w data) 0 (deref w data))
    as [Hok _]; [lia|].
  pose proof (attach_from_length es (deref w data) 0 (deref w data))
    as Hitems.
  destruct (attach_from es 0 (deref w data) (deref w data)) as [r items'].
  cbn [fst snd] in Hkeep, Hok, Hitems. subst r.
  rewrite Hkeep, Htitles.
  fold key. set (w3 := set_dataset data items' _).
  pose proof (create_tsne_visualization_run es titles key w3) as Hrun.
  cbn zeta in Hrun.
  assert (rng w3 = rng w) as Hrng by (unfold w3; by rewrite rng_set_dataset).
  rewrite Hrng, Hfit in Hrun.
  rewrite (annotate_from_ok pts titles 0) in Hrun by lia.
  rewrite Hsave in Hrun.
  pose proof (visualization_deref es titles key w3 data) as Hd.
  rewrite Hrun in Hd. cbn [snd] in Hd.
  assert (deref w3 data = items') as Hw3
    by (unfold w3; apply deref_set_dataset).
  rewrite Hw3 in Hd.
  rewrite Hrun. eexists _, _, (plotted pts (zip titles (drop 0 pts)) key).
  split; [reflexivity|]. rewrite Hd.
  split; [cbn; by rewrite Hitems|].
  split; [cbn; by rewrite lookup_insert_eq|].
  cbn [plotted scatter_xs annotations].
  rewrite length_map, length_zip, drop_0. lia.
Qed.

(** X11.  When TSNE raises, the request fails with that exception, no
    figure is opened and no file is written, but the vectors returned by
    the provider have already been stored: every record keeps an
    ["embedding"] entry from the failed request. *)
Theorem X11_reducer_failure_keeps_embeddings req (w : World) data tf lf
    texts titles es n e g :
  get_data_by_type w (params_get (query_params req) "type" "articles")
    (params_get (query_params req) "source" "dummy") = (data, tf, lf) →
  getitems tf (deref w data) = Ok texts →
  getitems lf (deref w data) = Ok titles →
  embeddings_create EMBEDDING_MODEL texts (net w) = (Ok es, n) →
  (length (deref w data) ≤ length es)%nat →
  TSNE_fit_transform TSNE_COMPONENTS (tsne_perplexity es) (Some 42) es (rng w)
  = (Raise e, g) →
  fst (process_data req w) = Raise e ∧
  files (snd (process_data req w)) = files w ∧
  figures (snd (process_data req w)) = figures w ∧
  ∀ i item, deref w data !! i = Some item →
    ∃ v, es !! i = Some v ∧
      deref (snd (process_data req w)) data !! i
      = Some (<["embedding" := VVec v]> item).
Proof.
  intros Hres Htexts Htitles Hemb Hlen Hfit.
  destruct (get_data_by_type_fields _ _ _ _ _ _ Hres) as [_ Hlf].
  rewrite process_data_run. cbn zeta.
  rewrite Hres, (getitems_take _ _ _ 3 Htitles), Htexts, Hemb.
  pose proof (attach_keeps_fields lf es (deref w data) (deref w data) Hlf)
    as Hkeep.
  destruct (attach_from_ok es (deref w data) 0 (deref w data))
    as [Hok Hstored]; [lia|].
  destruct (attach_from es 0 (deref w data) (deref w data)) as [r items'].
  cbn [fst snd] in Hkeep, Hok, Hstored. subst r.
  rewrite Hkeep, Htitles.
  set (key := params_get _ _ _ ++ "_" ++ params_get _ _ _).
  set (w3 := set_dataset data items' _).
  pose proof (create_tsne_visualization_run es titles key w3) as Hrun.
  cbn zeta in Hrun.
  assert (rng w3 = rng w) as Hrng by (unfold w3; by rewrite rng_set_dataset).
  rewrite Hrng, Hfit in Hrun. rewrite Hrun. cbn [fst snd].
  split; [done|].
  split; [unfold w3; by destruct data|].
  split; [unfold w3; by destruct data|].
  intros i item Hi.
  assert (deref (set_rng g
            (log (EvTSNE TSNE_COMPONENTS (tsne_perplexity es) (Some 42) es)
               w3)) data = items') as -> by (unfold w3; by destruct data).
  rewrite (Hstored i item Hi).
  pose proof (lookup_lt_Some _ _ _ Hi) as Hlt.
  rewrite bool_decide_eq_true_2 by lia.
  destruct (lookup_lt_is_Some_2 es i) as [v Hv]; [lia|].
  rewrite Hv. eauto.
Qed.

(** X7.  When neither the type nor the source holds a slash, the
    [chart_url] of a successful request is the base URL without its
    trailing slashes followed by [/static/tsne_<type>_<source>.png], and
    that file name is the one the artifact was written under in the static
    directory. *)
Theorem X7_chart_url_names_artifact req (w w' : World) resp :
  let data_type := params_get (query_params req) "type" "articles" in
  let source := params_get (query_params req) "source" "dummy" in
  has_slash data_type = false →
  has_slash source = false →
  process_data req w = (Ok resp, w') →
  json_get "chart_url" resp
  = Some (JStr (rstrip "/" (base_url req) ++ "/static/"
                ++ "tsne_" ++ data_type ++ "_" ++ source ++ ".png")) ∧
  is_Some (files w' !! ("static/" ++ "tsne_" ++ data_type ++ "_" ++ source
                        ++ ".png")) ∧
  ends_with_slash (rstrip "/" (base_url req)) = false.
Proof.
  intros data_type source Ht Hs.
  assert (has_slash (data_type ++ "_" ++ source) = false) as Hkey
    by (by rewrite !has_slash_app, Ht, Hs).
  rewrite process_data_run. cbn zeta. fold data_type source.
  destruct (get_data_by_type _ _ _) as [[data tf] lf].
  destruct (getitems lf (take 3 _)); [|discriminate].
  destruct (getitems tf _) as [texts|]; [|discriminate].
  destruct (embeddings_create _ _ _) as [[es|e] n]; [|discriminate].
  destruct (attach_from es 0 _ _) as [[[]|e] items']; [|discriminate].
  destruct (getitems lf items') as [titles|]; [|discriminate].
  set (key := data_type ++ "_" ++ source) in *.
  set (w3 := set_dataset data items' _).
  destruct (visualization_outcome es titles key w3)
    as (r & w4 & Hrun & _ & Hout).
  rewrite Hrun. destruct r as [p|e]; [|discriminate].
  destruct Hout as (-> & _ & _ & pts & g & anns & _ & _ & Hfiles).
  intros [= <- <-]. split; [|split].
  - cbn. rewrite (basename_image_path key Hkey).
    unfold key. by rewrite !append_assoc.
  - rewrite Hfiles.
    replace ("static/" ++ "tsne_" ++ data_type ++ "_" ++ source ++ ".png")
      with (image_path_of key); [by rewrite lookup_insert_eq|].
    unfold image_path_of, key.
    change ("static/tsne_" ++ ?x) with ("static/" ++ "tsne_" ++ x).
    by rewrite !append_assoc.
  - apply rstrip_no_trailing_slash.
Qed.

End Further.

(** * The claims on concrete runs *)

Section Runs_on_fixture.
Import Fixture.

Local Existing Instance fakes.

Lemma fake_tsne_seeded nc p s X (g1 g2 : nat) :
  fst (fake_tsne nc p (Some s) X g1) = fst (fake_tsne nc p (Some s) X g2).
Proof. unfold fake_tsne. by destruct (p <=? 0). Qed.

(** An unknown type is served from the articles, and movies from an empty
    Hugging Face list come from the bundled file. *)
Lemma C10_witness :
  get_data_by_type w0 "books" "dummy" = (DummyArticles, "content", "title") ∧
  get_data_by_type w0 "movies" "huggingface" = (DummyMovies, "plot", "title").
Proof.
  destruct (@C10_resolution_fallbacks fakes w0 "books" "dummy") as [Ha Hm].
  split.
  - apply Ha. discriminate.
  - apply Hm. reflexivity.
Defined.

(** The bare request is the request for articles from the dummy source. *)
Lemma C8_witness :
  get_processed_data (req []) w0
  = get_processed_data (with_param "type" "articles" (req [])) w0 ∧
  get_processed_data (req []) w0
  = get_processed_data (with_param "source" "dummy" (req [])) w0.
Proof.
  destruct (@C8_defaults fakes (req []) w0) as [Ht Hs].
  split.
  - apply Ht. intros v Hin. inversion Hin.
  - apply Hs. intros v Hin. inversion Hin.
Defined.

(** C8, counterexample: without [source] the reported source is ["dummy"]
    and the artifact is [tsne_articles_dummy.png], not ["builtin"]. *)
Lemma C8_counterexample :
  (json_get "data" (fst (get_processed_data (req []) w0))
     ≫= json_get "source") = Some (JStr "dummy") ∧
  (json_get "data" (fst (get_processed_data (req []) w0))
     ≫= json_get "chart_url")
  = Some (JStr "http://localhost:8000/static/tsne_articles_dummy.png") ∧
  JStr "dummy" ≠ JStr "builtin".
Proof. split; [|split]; [vm_compute; reflexivity..|discriminate]. Qed.

Lemma stochastic_tsne_seeded nc p s X (g1 g2 : nat) :
  fst (stochastic_tsne nc p (Some s) X g1)
  = fst (stochastic_tsne nc p (Some s) X g2).
Proof. unfold stochastic_tsne. by destruct (p <=? 0). Qed.

(** Two reductions of one batch from worlds whose generators differ, with
    a TSNE whose unseeded layouts differ between these two generators. *)
Lemma C9_witness :
  let vs := [[1%float]; [2%float]; [3%float]] in
  let w1 := sample fakes_stochastic 0%nat 0%nat in
  let w2 := sample fakes_stochastic 0%nat 7%nat in
  fst (@tsne_reduce fakes_stochastic vs w1)
  = fst (@tsne_reduce fakes_stochastic vs w2) ∧
  fst (@tsne_reduce fakes_stochastic vs w1)
  = fst (stochastic_tsne 2 2 (Some 42) vs 0%nat) ∧
  fst (stochastic_tsne 2 2 None vs 0%nat)
  ≠ fst (stochastic_tsne 2 2 None vs 7%nat).
Proof.
  intros vs w1 w2.
  destruct (@C9_reduction_deterministic fakes_stochastic
              stochastic_tsne_seeded vs [] "movies_dummy" w1 w2)
    as (Hrun & _ & Hsame & _).
  split; [exact Hsame|]. split; [exact Hrun|].
  intros H.
  apply (f_equal (fun r : result (list (float * float)) =>
                    match r with
                    | Ok ((x, _) :: _) => PrimFloat.eqb x 0%float
                    | _ => false
                    end)) in H.
  vm_compute in H. discriminate.
Defined.

(** Rendering the same three vectors twice under one key. *)
Lemma C5_witness :
  let vs := [[1%float]; [2%float]; [3%float]] in
  let titles := [VStr "Alien"; VStr "Heat"; VStr "Up"] in
  let w1 := snd (create_tsne_visualization vs titles "movies_dummy" w0) in
  ∃ w2,
    create_tsne_visualization vs titles "movies_dummy" w1
    = (Ok "static/tsne_movies_dummy.png", w2) ∧
    files w2 = files w1.
Proof.
  intros vs titles w1.
  destruct (@C5_render_idempotent fakes fake_tsne_seeded vs titles
              "movies_dummy" w0 w1 "static/tsne_movies_dummy.png")
    as (_ & _ & _ & w2 & Hrun & Hfiles).
  - vm_compute. reflexivity.
  - exists w2. split; [exact Hrun | exact Hfiles].
Defined.

(** C2, counterexample: with no record the provider is called with the
    empty batch and TSNE is invoked with perplexity -1; with one record
    TSNE is invoked with perplexity 0; both requests end as the same plain
    failure carrying the reducer's message. *)
Lemma C2_counterexample :
  calls (snd (get_processed_data (req []) w_empty))
  = [EvEmbed "text-embedding-3-small" [];
     EvTSNE 2 (-1) (Some 42) []] ∧
  calls (snd (get_processed_data (req []) w_one))
  = [EvEmbed "text-embedding-3-small" [VStr "Ownership and borrowing."];
     EvTSNE 2 0 (Some 42) [[1%float; 0%float]]] ∧
  fst (get_processed_data (req []) w_empty)
  = fst (get_processed_data (req []) w_one) ∧
  json_get "success" (fst (get_processed_data (req []) w_empty))
  = Some (JBool false).
Proof. repeat split; vm_compute; reflexivity. Qed.

(** A single article: the provider and then TSNE are called, and the
    request fails with what TSNE raised. *)
Lemma C2_witness :
  fst (process_data (req []) w_one) = Raise perplexity_error ∧
  ∃ later,
    calls (snd (process_data (req []) w_one)) =
    (calls w_one
     ++ EvEmbed EMBEDDING_MODEL [VStr "Ownership and borrowing."]
        :: EvTSNE 2 0 (Some 42) [[1%float; 0%float]] :: later)%list.
Proof.
  destruct (@C2_small_datasets fakes (req []) w_one DummyArticles
              "content" "title" [VStr "Ownership and borrowing."]
              [VStr "Rust"]) as [_ Hsmall].
  - reflexivity.
  - vm_compute. lia.
  - vm_compute. reflexivity.
  - vm_compute. reflexivity.
  - destruct (Hsmall [[1%float; 0%float]] 1%nat) as [Hcalls Hraise].
    + reflexivity.
    + reflexivity.
    + split; [|exact Hcalls].
      apply (Hraise perplexity_error 0%nat). reflexivity.
Defined.



(** C6, counterexample: neither the success payload nor the failure
    payload has the documented fields. *)
Lemma C6_counterexample :
  documented_shape (fst (get_processed_data (req []) w0)) = false ∧
  json_get "success" (fst (get_processed_data (req []) w0))
  = Some (JBool true) ∧
  documented_shape (fst (get_processed_data (req []) w_empty)) = false ∧
  json_get "error_type" (fst (get_processed_data (req []) w_empty)) = None.
Proof. repeat split; vm_compute; reflexivity. Qed.

(** C7, counterexample: after one request for the articles, the first
    article of the module-level list carries an embedding it did not have. *)
Lemma C7_counterexample :
  (DUMMY_ARTICLES w0 !! 0%nat ≫= lookup "embedding") = None ∧
  (DUMMY_ARTICLES (snd (get_processed_data (req []) w0)) !! 0%nat
     ≫= lookup "embedding") = Some (VVec [1%float; 0%float]) ∧
  DUMMY_ARTICLES (snd (get_processed_data (req []) w0)) ≠ DUMMY_ARTICLES w0.
Proof.
  split; [vm_compute; reflexivity|]. split; [vm_compute; reflexivity|].
  intros H.
  apply (f_equal (fun l : list record => l !! 0%nat ≫= lookup "embedding"))
    in H.
  vm_compute in H. discriminate.
Qed.

(** One request for the articles: the movies are untouched and the first
    article now holds its vector. *)
Lemma C7_witness :
  deref (snd (process_data (req []) w0)) DummyMovies = deref w0 DummyMovies ∧
  ∃ e,
    deref (snd (process_data (req []) w0)) DummyArticles !! 0%nat
    = Some (<["embedding" := VVec e]>
              (article 1 "Rust" "Ownership and borrowing.")).
Proof.
  destruct (@C7_run_effects fakes (req []) w0 DummyArticles "content" "title")
    as (Hother & _ & Hrun); [reflexivity|].
  split; [apply Hother; discriminate|].
  destruct (Hrun [VStr "Rust"; VStr "Tea"]
              [VStr "Ownership and borrowing."; VStr "Leaves and water."])
    as [_ Hstore].
  - vm_compute. reflexivity.
  - vm_compute. reflexivity.
  - destruct (Hstore [[1%float; 0%float]; [1%float; 0%float]] 1%nat
                eq_refl) with (i := 0%nat)
        (item := article 1 "Rust" "Ownership and borrowing.")
      as (e & _ & He).
    + vm_compute. lia.
    + reflexivity.
    + exists e. exact He.
Defined.

(** The three bundled movies through the whole pipeline. *)
Lemma C1_witness :
  ∃ resp w' fig,
    process_data (req [("type", "movies")]) w0 = (Ok resp, w') ∧
    json_get "count" resp = Some (JNum 3) ∧
    files w' !! "static/tsne_movies_dummy.png" = Some fig ∧
    length (annotations fig) = 3%nat ∧
    ∀ i item, deref w0 DummyMovies !! i = Some item →
      ∃ title e xy,
        item !! "title" = Some title ∧
        annotations fig !! i = Some (title, xy) ∧
        deref w' DummyMovies !! i = Some (<["embedding" := VVec e]> item).
Proof.
  destruct (@C1_positional_order fakes (req [("type", "movies")]) w0
              DummyMovies "plot" "title"
              [VStr "A crew meets a creature."; VStr "A thief and a detective.";
               VStr "A house flies away."]
              [VStr "Alien"; VStr "Heat"; VStr "Up"]
              [[1%float; 0%float]; [1%float; 0%float]; [1%float; 0%float]]
              1%nat
              [(0%float, 0%float); (0%float, 0%float); (0%float, 0%float)]
              0%nat)
    as (resp & w' & fig & Hrun & Hcount & Hfile & _ & _ & Hanns & _ & _ & Hpos).
  - reflexivity.
  - vm_compute. lia.
  - vm_compute. reflexivity.
  - vm_compute. reflexivity.
  - reflexivity.
  - reflexivity.
  - reflexivity.
  - reflexivity.
  - intros fig. reflexivity.
  - exists resp, w', fig. split; [exact Hrun|].
    split; [exact Hcount|]. split; [exact Hfile|]. split; [exact Hanns|].
    intros i item Hi.
    destruct (Hpos i item Hi) as (text & title & e & xy & _ & _ & Ht & _ & _ & Ha & Hs).
    exists title, e, xy. split; [exact Ht|]. split; [exact Ha|exact Hs].
Defined.

(** ** The further properties on concrete runs *)

(** Start-up with neither bundled file and no connection. *)
Lemma X1_witness :
  let w := @startup fakes no_files (Raise connection_error) 0%nat 0%nat in
  DUMMY_ARTICLES w = [] ∧
  DUMMY_MOVIES w = [] ∧
  get_data_by_type w "movies" "huggingface" = (DummyMovies, "plot", "title") ∧
  ∃ later,
    calls (snd (process_data (req []) w)) = EvEmbed EMBEDDING_MODEL [] :: later.
Proof.
  intros w.
  destruct (@X1_startup_swallows_failures fakes no_files
              (Raise connection_error) 0%nat 0%nat)
    as (Ha & Hm & _ & _ & Hhf & Hreq).
  split; [apply (Ha (Raised "FileNotFoundError" "data/articles.json"));
          reflexivity|].
  split; [apply (Hm (Raised "FileNotFoundError" "data/movies.json"));
          reflexivity|].
  split; [apply (Hhf connection_error); reflexivity|].
  apply (Hreq (Raised "FileNotFoundError" "data/articles.json") (req [])).
  - reflexivity.
  - vm_compute. discriminate.
Defined.

(** A backend that cannot write leaves the figure open. *)
Lemma X3_witness :
  let vs := [[1%float]; [2%float]; [3%float]] in
  let titles := [VStr "Alien"; VStr "Heat"; VStr "Up"] in
  let w := sample fakes_readonly 0%nat 0%nat in
  let run := @create_tsne_visualization fakes_readonly vs titles
               "movies_dummy" w in
  fst run = Raise permission_error ∧
  files (snd run) = files w ∧
  length (figures (snd run)) = 1%nat.
Proof.
  intros vs titles w run.
  pose proof (@X3_figure_left_open_on_failure fakes_readonly vs titles
                "movies_dummy" w (Raise permission_error) (snd run)) as H.
  destruct H as [Hfiles [[[g Hfit] _]|[_ Hfig]]].
  - vm_compute. reflexivity.
  - vm_compute in Hfit. discriminate.
  - split; [vm_compute; reflexivity|]. split; [exact Hfiles|exact Hfig].
Defined.

(** Two articles and a provider that returns one vector. *)
Lemma X4_witness :
  let w := sample fakes_short 0%nat 0%nat in
  fst (@process_data fakes_short (req []) w)
  = Raise (IndexError "list index out of range") ∧
  calls (snd (@process_data fakes_short (req []) w))
  = [EvEmbed EMBEDDING_MODEL
       [VStr "Ownership and borrowing."; VStr "Leaves and water."]] ∧
  files (snd (@process_data fakes_short (req []) w)) = files w.
Proof.
  intros w.
  destruct (@X4_too_few_vectors fakes_short (req []) w DummyArticles
              "content" "title" [VStr "Rust"; VStr "Tea"]
              [VStr "Ownership and borrowing."; VStr "Leaves and water."]
              [[1%float; 0%float]] 1%nat)
    as (Hraise & Hcalls & Hfiles & _).
  - reflexivity.
  - vm_compute. reflexivity.
  - vm_compute. reflexivity.
  - reflexivity.
  - vm_compute. lia.
  - split; [exact Hraise|]. split; [exact Hcalls|exact Hfiles].
Defined.

(** Two articles and a provider that returns three vectors. *)
Lemma X5_witness :
  let w := sample fakes_long 0%nat 0%nat in
  ∃ resp w' fig,
    @process_data fakes_long (req []) w = (Ok resp, w') ∧
    json_get "count" resp = Some (JNum 2) ∧
    files w' !! "static/tsne_articles_dummy.png" = Some fig ∧
    length (scatter_xs fig) = 3%nat ∧
    length (annotations fig) = 2%nat.
Proof.
  intros w.
  destruct (@X5_surplus_vectors fakes_long (req []) w DummyArticles
              "content" "title"
              [VStr "Ownership and borrowing."; VStr "Leaves and water."]
              [VStr "Rust"; VStr "Tea"]
              [[1%float; 0%float]; [1%float; 0%float]; [7%float; 7%float]]
              1%nat
              [(0%float, 0%float); (0%float, 0%float); (0%float, 0%float)]
              0%nat)
    as (resp & w' & fig & Hrun & Hcount & Hfile & Hxs & Hanns & _).
  - reflexivity.
  - vm_compute. reflexivity.
  - vm_compute. reflexivity.
  - reflexivity.
  - vm_compute. lia.
  - reflexivity.
  - reflexivity.
  - intros fig. reflexivity.
  - exists resp, w', fig. split; [exact Hrun|]. split; [exact Hcount|].
    split; [exact Hfile|]. split; [exact Hxs|exact Hanns].
Defined.

(** The three bundled movies: three vectors, three points, three calls,
    the artifact, no open figure. *)
Lemma X6_witness :
  let w' := snd (process_data (req [("type", "movies")]) w0) in
  ∃ texts es pts fig,
    fake_embeddings EMBEDDING_MODEL texts 0%nat = (Ok es, 1%nat) ∧
    fake_tsne 2 2 (Some 42) es 0%nat = (Ok pts, 0%nat) ∧
    length texts = 3%nat ∧
    calls w' =
    [EvEmbed EMBEDDING_MODEL texts; EvTSNE 2 2 (Some 42) es;
     EvSavefig "static/tsne_movies_dummy.png"] ∧
    files w' !! "static/tsne_movies_dummy.png" = Some fig ∧
    scatter_xs fig = map fst pts ∧
    length (annotations fig) = 3%nat ∧
    figures w' = [].
Proof.
  intros w'.
  destruct (@X6_success_guarantees fakes (req [("type", "movies")]) w0 w'
              DummyMovies "plot" "title" movies_response)
    as (texts & es & n & pts & g & Htexts & Hemb & Hfit & _ & Hlen & _
        & _ & Hcalls & (fig & Hfile & Hxs & _ & Hanns) & Hfig & _).
  - reflexivity.
  - vm_compute. reflexivity.
  - injection Htexts as <-.
    injection Hemb as <- <-.
    injection Hfit as <- <-.
    eexists _, _, _, fig. split; [reflexivity|]. split; [reflexivity|].
    split; [exact Hlen|]. split; [exact Hcalls|].
    split; [exact Hfile|]. split; [exact Hxs|]. split; [exact Hanns|].
    exact Hfig.
Defined.

(** The chart URL of the bundled movies. *)
Lemma X7_witness :
  let w' := snd (process_data (req [("type", "movies")]) w0) in
  json_get "chart_url" movies_response
  = Some (JStr "http://localhost:8000/static/tsne_movies_dummy.png") ∧
  is_Some (files w' !! "static/tsne_movies_dummy.png").
Proof.
  intros w'.
  destruct (@X7_chart_url_names_artifact fakes (req [("type", "movies")])
              w0 w' movies_response) as (Hurl & Hfile & _).
  - reflexivity.
  - reflexivity.
  - vm_compute. reflexivity.
  - split; [exact Hurl|exact Hfile].
Defined.

(** A single article: the request fails and no file appears. *)
Lemma X8_witness :
  files (snd (get_processed_data (req []) w_one)) = files w_one.
Proof.
  apply (@X8_failure_writes_no_file fakes (req []) w_one).
  vm_compute. reflexivity.
Defined.

(** A provider that cannot connect. *)
Lemma X9_witness :
  let w := sample fakes_offline 0%nat 0%nat in
  fst (@process_data fakes_offline (req []) w) = Raise connection_error ∧
  calls (snd (@process_data fakes_offline (req []) w))
  = [EvEmbed EMBEDDING_MODEL
       [VStr "Ownership and borrowing."; VStr "Leaves and water."]] ∧
  json_get "error" (fst (@get_processed_data fakes_offline (req []) w))
  = Some (JStr "Connection error.").
Proof.
  intros w.
  destruct (@X9_provider_failure fakes_offline (req []) w DummyArticles
              "content" "title" [VStr "Rust"; VStr "Tea"]
              [VStr "Ownership and borrowing."; VStr "Leaves and water."]
              connection_error 1%nat)
    as (Hrun & Hcalls & _ & _ & _ & Herr).
  - reflexivity.
  - vm_compute. reflexivity.
  - vm_compute. reflexivity.
  - reflexivity.
  - split; [by rewrite Hrun|]. split; [exact Hcalls|exact Herr].
Defined.

(** After a request for the articles their titles read as before. *)
Lemma X10_witness :
  getitems "title" (deref (snd (process_data (req []) w0)) DummyArticles)
  = getitems "title" (deref w0 DummyArticles).
Proof.
  destruct (@X10_later_requests_unaffected fakes (req []) w0) as (_ & _ & H).
  apply H. discriminate.
Defined.

(** A single article: TSNE rejects perplexity 0 and the article keeps its
    vector. *)
Lemma X11_witness :
  fst (process_data (req []) w_one) = Raise perplexity_error ∧
  files (snd (process_data (req []) w_one)) = files w_one ∧
  ∃ v,
    deref (snd (process_data (req []) w_one)) DummyArticles !! 0%nat
    = Some (<["embedding" := VVec v]>
              (article 1 "Rust" "Ownership and borrowing.")).
Proof.
  destruct (@X11_reducer_failure_keeps_embeddings fakes (req []) w_one
              DummyArticles "content" "title"
              [VStr "Ownership and borrowing."] [VStr "Rust"]
              [[1%float; 0%float]] 1%nat perplexity_error 0%nat)
    as (Hraise & Hfiles & _ & Hstored).
  - reflexivity.
  - vm_compute. reflexivity.
  - vm_compute. reflexivity.
  - reflexivity.
  - vm_compute. lia.
  - reflexivity.
  - split; [exact Hraise|]. split; [exact Hfiles|].
    destruct (Hstored 0%nat (article 1 "Rust" "Ownership and borrowing."))
      as (v & _ & Hv); [reflexivity|].
    exists v. exact Hv.
Defined.

End Runs_on_fixture.
